(** * Export reconciliation: CSV and Google Sheets export of card records

    A shallow embedding of [backend/src/controllers/exportController.ts]
    and of the part of [config] it reads, with the properties of the
    field-integrity validation, the schema classification, the row
    builder and the two request handlers. *)

From Stdlib Require Import List NArith Arith String Ascii Bool Lia DecimalString.
From stdpp Require Import base option list gmap.

Set Default Proof Using "Type".

(** ** JavaScript strings

    A JavaScript string is a sequence of UTF-16 code units; [length],
    [substring], [includes], [===] and a regular expression without the
    [u] flag all work on code units. *)

Abbreviation jsstring := (list N).

Definition lit (s : string) : jsstring :=
  map N_of_ascii (list_ascii_of_string s).
Arguments lit s%_string : simpl never.

(** [String(n)] for a non-negative integer [n]. *)
Definition ofNat (n : nat) : jsstring :=
  lit (NilEmpty.string_of_uint (Nat.to_uint n)).
Arguments ofNat : simpl never.

(** [a === b] on strings. *)
Definition strictEq (a b : jsstring) : bool := bool_decide (a = b).

(** Truthiness of a string: every string but the empty one. *)
Definition truthy (s : jsstring) : bool :=
  match s with
  | [] => false
  | _ :: _ => true
  end.

(** Truthiness of a property that may be [undefined]. *)
Definition truthyOpt (o : option jsstring) : bool :=
  match o with
  | Some s => truthy s
  | None => false
  end.

(** [a || d] for a string [a]. *)
Definition orElse (a d : jsstring) : jsstring :=
  if truthy a then a else d.

(** [o || d] for a property that may be [undefined]. *)
Definition orElseOpt (o : option jsstring) (d : jsstring) : jsstring :=
  match o with
  | Some s => orElse s d
  | None => d
  end.

(** WhiteSpace and LineTerminator code points of ECMAScript: the set
    stripped by [trim] and matched by [\s]. *)
Definition isLineTerminator (c : N) : bool :=
  ((c =? 10) || (c =? 13) || (c =? 8232) || (c =? 8233))%N.

Definition isWhiteSpace (c : N) : bool :=
  ((c =? 9) || (c =? 11) || (c =? 12) || (c =? 32) || (c =? 160)
   || (c =? 5760) || ((8192 <=? c) && (c <=? 8202)) || (c =? 8239)
   || (c =? 8287) || (c =? 12288) || (c =? 65279))%N
  || isLineTerminator c.

Fixpoint trimStart (s : jsstring) : jsstring :=
  match s with
  | c :: s' => if isWhiteSpace c then trimStart s' else s
  | [] => []
  end.

Definition trimEnd (s : jsstring) : jsstring := rev (trimStart (rev s)).

Definition trim (s : jsstring) : jsstring := trimEnd (trimStart s).

(** [s.substring(0, n)]. *)
Definition substring0 (s : jsstring) (n : nat) : jsstring := take n s.

Fixpoint startsWith (s sub : jsstring) : bool :=
  match sub, s with
  | [], _ => true
  | _ :: _, [] => false
  | x :: sub', c :: s' => (x =? c)%N && startsWith s' sub'
  end.

(** [s.includes(sub)]. *)
Fixpoint includes (s sub : jsstring) : bool :=
  startsWith s sub ||
  match s with
  | [] => false
  | _ :: s' => includes s' sub
  end.

(** ** Regular expressions

    The one pattern of the controller is a sequence of quantified
    character classes anchored at the start of the subject.  [matchSeq]
    is the backtracking matcher of ECMAScript on such sequences: every
    item tries its admissible repetition counts in priority order
    (longest first when greedy, shortest first when lazy) and the first
    count for which the rest of the pattern matches wins. *)

Record Rep := {
  cls : N -> bool;
  rmin : nat;
  rmax : option nat;
  greedy : bool
}.

Fixpoint runLength (p : N -> bool) (s : jsstring) : nat :=
  match s with
  | c :: s' => if p c then S (runLength p s') else 0
  | [] => 0
  end.

Fixpoint firstSome {A B} (f : A -> option B) (l : list A) : option B :=
  match l with
  | [] => None
  | a :: l' =>
      match f a with
      | Some b => Some b
      | None => firstSome f l'
      end
  end.

Definition counts (r : Rep) (s : jsstring) : list nat :=
  let run := runLength (cls r) s in
  let hi := match rmax r with Some m => Nat.min m run | None => run end in
  let up := seq (rmin r) (S hi - rmin r) in
  if greedy r then rev up else up.

(** The number of code units consumed by each item, in order. *)
Fixpoint matchSeq (items : list Rep) (s : jsstring) : option (list nat) :=
  match items with
  | [] => Some []
  | r :: rest =>
      firstSome
        (fun n =>
           match matchSeq rest (drop n s) with
           | Some ns => Some (n :: ns)
           | None => None
           end)
        (counts r s)
  end.

Definition dot (c : N) : bool := negb (isLineTerminator c).
Definition comma (c : N) : bool := (c =? 44)%N.
Definition upper (c : N) : bool := ((65 <=? c) && (c <=? 90))%N.
Definition lower (c : N) : bool := ((97 <=? c) && (c <=? 122))%N.

Definition one (p : N -> bool) : Rep :=
  {| cls := p; rmin := 1; rmax := Some 1; greedy := true |}.
Definition star (p : N -> bool) : Rep :=
  {| cls := p; rmin := 0; rmax := None; greedy := true |}.
Definition plus (p : N -> bool) : Rep :=
  {| cls := p; rmin := 1; rmax := None; greedy := true |}.
Definition lazyUpTo (p : N -> bool) (m : nat) : Rep :=
  {| cls := p; rmin := 0; rmax := Some m; greedy := false |}.

(** [/^(.{0,150}?)(?:\s*,\s*[A-Z][a-z]+\s+[A-Z][a-z]+)/] *)
Definition titlePattern : list Rep :=
  [ lazyUpTo dot 150;
    star isWhiteSpace; one comma; star isWhiteSpace;
    one upper; plus lower; plus isWhiteSpace; one upper; plus lower ].

(** [listingTitle.match(...)]: [None] when there is no match, otherwise
    capture group 1. *)
Definition titleMatch (s : jsstring) : option jsstring :=
  match matchSeq titlePattern s with
  | Some (n :: _) => Some (take n s)
  | _ => None
  end.

(** ** Card records and the card store *)

Record NormalizedFields := {
  year : jsstring;
  set : jsstring;
  cardNumber : jsstring;
  title : jsstring;
  playerFirstName : jsstring;
  playerLastName : jsstring;
  gradingCompany : jsstring;
  grade : jsstring;
  cert : jsstring;
  caption : jsstring
}.

Record CardRecord := {
  normalized : NormalizedFields;
  autoTitle : option jsstring;
  autoDescription : option jsstring
}.

(** [cardsStore]: a map from card id to record. *)
Abbreviation CardStore := (gmap (list N) CardRecord).

(** ** Field-integrity validation *)

(** Lines 34-35 and 144-145: both fields truthy, title longer than 200
    code units, description shorter than 100. *)
Definition swapDefect (card : CardRecord) : bool :=
  truthyOpt (autoTitle card) && truthyOpt (autoDescription card) &&
  match autoTitle card, autoDescription card with
  | Some t, Some d => (200 <? length t) && (length d <? 100)
  | _, _ => false
  end.

Definition swapFields (card : CardRecord) : CardRecord :=
  {| normalized := normalized card;
     autoTitle := autoDescription card;
     autoDescription := autoTitle card |}.

(** The swap repair of both handlers: the record held by the store is
    mutated and written back under its id. *)
Definition swapRepair (store : CardStore) (cardId : jsstring)
    (card : CardRecord) : CardStore * CardRecord :=
  if swapDefect card
  then (<[cardId := swapFields card]> store, swapFields card)
  else (store, card).

(** The working [listingTitle] of the CSV handler, lines 55-84. *)
Definition csvListingTitle (card : CardRecord) : jsstring :=
  let listingTitle :=
    match autoTitle card with
    | Some t =>
        if truthy t && negb (strictEq (trim t) [])
        then t else title (normalized card)
    | None => title (normalized card)
    end in
  match autoDescription card with
  | Some d =>
      if truthy listingTitle && truthy d then
        let listingTitle :=
          if (150 <? length listingTitle)
             && includes listingTitle (substring0 d 50)
          then
            match titleMatch listingTitle with
            | Some g =>
                if truthy g then trim g
                else trim (substring0 listingTitle 100)
            | None => trim (substring0 listingTitle 100)
            end
          else listingTitle in
        if strictEq listingTitle d
        then orElse (title (normalized card)) (lit "Untitled")
        else listingTitle
      else listingTitle
  | None => listingTitle
  end.

(** The working [listingTitle] of the Sheets handler, lines 213-265:
    the same chain followed by the final safety check. *)
Definition sheetsListingTitle (card : CardRecord) : jsstring :=
  let listingTitle :=
    match autoTitle card with
    | Some t =>
        if truthy t && negb (strictEq (trim t) [])
        then t else title (normalized card)
    | None => title (normalized card)
    end in
  let listingTitle :=
    if truthy listingTitle && truthyOpt (autoDescription card) then
      let d := orElseOpt (autoDescription card) [] in
      let listingTitle :=
        if (150 <? length listingTitle)
           && includes listingTitle (substring0 d 50)
        then
          match titleMatch listingTitle with
          | Some g =>
              if truthy g then trim g
              else trim (substring0 listingTitle 100)
          | None => trim (substring0 listingTitle 100)
          end
        else listingTitle in
      if strictEq listingTitle d
      then orElse (title (normalized card)) (lit "Untitled")
      else listingTitle
    else listingTitle in
  if truthy listingTitle && truthyOpt (autoDescription card) then
    let d := orElseOpt (autoDescription card) [] in
    if strictEq listingTitle d
       || ((200 <? length listingTitle)
           && includes listingTitle (substring0 d 50))
    then orElse (title (normalized card)) (lit "Untitled Card")
    else listingTitle
  else listingTitle.

(** ** Schema classification (Sheets handler, lines 308-361)

    The argument is [existingData.data.values]; the result is
    [(needsHeaderUpdate, autoDescriptionColumnIndex)]. *)

Definition cellIs (row : list jsstring) (i : nat) (s : jsstring) : bool :=
  bool_decide (row !! i = Some s).

Definition classify (values : option (list (list jsstring))) : bool * nat :=
  match values with
  | Some (existingHeaders :: _) =>
      if (length existingHeaders =? 12)
         && cellIs existingHeaders 11 (lit "Auto Description")
      then
        if cellIs existingHeaders 10 (lit "Auto Title")
           || cellIs existingHeaders 10 (lit "Auto Description")
        then (cellIs existingHeaders 10 (lit "Auto Description"), 11)
        else (true, 11)
      else if (length existingHeaders =? 11)
              && cellIs existingHeaders 10 (lit "Auto Description")
      then (false, 10)
      else (true, if 11 <? length existingHeaders then 11 else 10)
  | _ => (false, 10)
  end.

(** ** Row construction and its checks (lines 363-443) *)

(** A value thrown by the handler or by the spreadsheet service. *)
Inductive Thrown :=
| ErrorObject (message : jsstring)
| OtherValue.

Definition lengthOpt (o : option jsstring) : nat :=
  match o with
  | Some s => length s
  | None => 0
  end.

Definition rowData (card : CardRecord) (listingTitle : jsstring)
    (autoDescriptionColumnIndex : nat) : list jsstring :=
  let safeListingTitle := orElse listingTitle [] in
  let safeAutoDescription := orElseOpt (autoDescription card) [] in
  let n := normalized card in
  if autoDescriptionColumnIndex =? 11 then
    let safeAutoTitle := orElseOpt (autoTitle card) safeListingTitle in
    [ orElse (year n) []; orElse (set n) []; orElse (cardNumber n) [];
      safeListingTitle;
      orElse (playerFirstName n) []; orElse (playerLastName n) [];
      orElse (gradingCompany n) []; orElse (grade n) [];
      orElse (cert n) []; orElse (caption n) [];
      safeAutoTitle; safeAutoDescription ]
  else
    [ orElse (year n) []; orElse (set n) []; orElse (cardNumber n) [];
      safeListingTitle;
      orElse (playerFirstName n) []; orElse (playerLastName n) [];
      orElse (gradingCompany n) []; orElse (grade n) [];
      orElse (cert n) []; orElse (caption n) [];
      safeAutoDescription ].

Definition expectedLength (autoDescriptionColumnIndex : nat) : nat :=
  if autoDescriptionColumnIndex =? 11 then 12 else 11.

Definition lengthError (len expected : nat) : Thrown :=
  ErrorObject (lit "Row data array has incorrect length: " ++ ofNat len
               ++ lit " instead of " ++ ofNat expected).

Definition identicalError : Thrown :=
  ErrorObject (lit "Listing Title and Auto Description cannot be identical").

Definition longerError : Thrown :=
  ErrorObject
    (lit "Listing Title is longer than Auto Description - fields may be swapped").

(** The row, or the error thrown by the first failing check. *)
Definition buildRow (card : CardRecord) (listingTitle : jsstring)
    (autoDescriptionColumnIndex : nat) : Thrown + list jsstring :=
  let row := rowData card listingTitle autoDescriptionColumnIndex in
  let autoDescIndex := autoDescriptionColumnIndex in
  if negb (length row =? expectedLength autoDescriptionColumnIndex) then
    inl (lengthError (length row) (expectedLength autoDescriptionColumnIndex))
  else if truthyOpt (row !! 3) && truthyOpt (row !! autoDescIndex)
          && bool_decide (row !! 3 = row !! autoDescIndex) then
    inl identicalError
  else if truthyOpt (row !! 3) && truthyOpt (row !! autoDescIndex)
          && (lengthOpt (row !! autoDescIndex) <? lengthOpt (row !! 3)) then
    inl longerError
  else inr row.

(** ** Configuration ([config], read from the process environment) *)

Module Config.

Record sheets_t := {
  serviceAccountKey : jsstring;
  (** The parsed credentials, kept as their JSON text; [None] is
      [null] or any other falsy result. *)
  serviceAccountKeyJson : option jsstring;
  spreadsheetId : jsstring;
  sheetName : jsstring
}.

Record t := {
  nodeEnv : jsstring;
  sheets : sheets_t
}.

End Config.

(** What the handlers use of the platform: [JSON.parse], [path], [fs]. *)
Record Platform := {
  (** [JSON.parse] returns, without throwing, a truthy value. *)
  JSON_parse_truthy : jsstring -> bool;
  path_isAbsolute : jsstring -> bool;
  (** [path.join(__dirname, "../../", p)]. *)
  path_joinDirname : jsstring -> jsstring;
  fs_existsSync : jsstring -> bool
}.

Abbreviation ProcessEnv := (gmap (list N) (list N)).

(** [envVar.replace(/\\n/g, '\n')]: every backslash followed by [n]
    becomes a line feed. *)
Fixpoint unescapeNewlines (s : jsstring) : jsstring :=
  match s with
  | 92%N :: (110%N :: s') => 10%N :: unescapeNewlines s'
  | c :: s' => c :: unescapeNewlines s'
  | [] => []
  end.

Definition parseJsonFromEnv (p : Platform) (envVar : option jsstring)
    : option jsstring :=
  if truthyOpt envVar then
    let unescaped := unescapeNewlines (orElseOpt envVar []) in
    if JSON_parse_truthy p unescaped then Some unescaped else None
  else None.

Definition loadConfig (p : Platform) (env : ProcessEnv) : Config.t :=
  {| Config.nodeEnv := orElseOpt (env !! lit "NODE_ENV") (lit "development");
     Config.sheets :=
       {| Config.serviceAccountKey :=
            orElseOpt (env !! lit "GOOGLE_SHEETS_SERVICE_ACCOUNT_KEY")
                      (lit "./credentials/google-sheets-credentials.json");
          Config.serviceAccountKeyJson :=
            parseJsonFromEnv p (env !! lit "GOOGLE_SHEETS_CREDENTIALS_JSON");
          Config.spreadsheetId :=
            orElseOpt (env !! lit "GOOGLE_SHEETS_SPREADSHEET_ID") [];
          Config.sheetName :=
            orElseOpt (env !! lit "GOOGLE_SHEETS_SHEET_NAME") (lit "Cards")
       |}
  |}.

(** ** HTTP requests and responses *)

Module Request.

(** [req.body]. *)
Record body := {
  cardId : option jsstring;
  spreadsheetId : option jsstring;
  sheetName : option jsstring
}.

End Request.

Inductive ResponseBody :=
(** [{ error, details }]; [res.json] drops a [details] that is
    [undefined]. *)
| ErrorBody (error : jsstring) (details : option jsstring)
(** The serialization by [csv-stringify], with a header line, of one
    record given as its ordered columns. *)
| CsvBody (csvData : list (jsstring * jsstring))
| SheetsBody (message spreadsheetId sheetName sheetUrl : jsstring) (row : nat).

Record Response := {
  status : nat;
  headers : list (jsstring * jsstring);
  body : ResponseBody
}.

Definition jsonError (code : nat) (error : jsstring) : Response :=
  {| status := code; headers := []; body := ErrorBody error None |}.

(** ** The CSV handler, [router.post("/csv")] *)

Definition csvData (card : CardRecord) (listingTitle : jsstring)
    : list (jsstring * jsstring) :=
  let n := normalized card in
  [ (lit "Year", year n);
    (lit "Set", set n);
    (lit "Card Number", cardNumber n);
    (lit "Listing Title", listingTitle);
    (lit "Player First Name", playerFirstName n);
    (lit "Player Last Name", playerLastName n);
    (lit "Grading Company", gradingCompany n);
    (lit "Grade", grade n);
    (lit "Cert", cert n);
    (lit "Listing Caption", caption n);
    (lit "Auto Description", orElseOpt (autoDescription card) []) ].

Definition quote : jsstring := [34%N].

(** [res.setHeader] throws on a value with a code unit outside tab,
    0x20-0x7E and 0x80-0xFF; nothing is sent then and the [catch] of
    lines 115-118 answers. *)
Definition validHeaderChar (c : N) : bool :=
  ((c =? 9) || ((32 <=? c) && (c <=? 126)) || ((128 <=? c) && (c <=? 255)))%N.

Definition validHeaderValue (value : jsstring) : bool :=
  forallb validHeaderChar value.

(** The other steps of the handler do not throw on a record of the
    types above ([stringify] is taken to be total). *)
Definition exportCsv (store : CardStore) (req : Request.body)
    : Response * CardStore :=
  if negb (truthyOpt (Request.cardId req)) then
    (jsonError 400 (lit "Card ID is required"), store)
  else
    let cardId := orElseOpt (Request.cardId req) [] in
    match store !! cardId with
    | None => (jsonError 404 (lit "Card not found"), store)
    | Some card =>
        let '(store, card) := swapRepair store cardId card in
        let listingTitle := csvListingTitle card in
        let disposition :=
          lit "attachment; filename=" ++ quote ++ lit "card-"
          ++ cardId ++ lit ".csv" ++ quote in
        if validHeaderValue disposition then
          ({| status := 200;
              headers :=
                [ (lit "Content-Type", lit "text/csv");
                  (lit "Content-Disposition", disposition) ];
              body := CsvBody (csvData card listingTitle) |},
           store)
        else (jsonError 500 (lit "CSV export failed"), store)
    end.

(** ** The spreadsheet service

    The client of the Sheets API is an external collaborator.  A
    handler run sees it as an oracle: the outcome of a request may
    depend on the requests issued before it in that run. *)

Inductive SheetsCall :=
| SpreadsheetsGet (spreadsheetId : jsstring)
| SpreadsheetsBatchUpdateAddSheet (spreadsheetId title : jsstring)
| ValuesGet (spreadsheetId range : jsstring)
| ValuesUpdate (spreadsheetId range : jsstring)
    (values : list (list jsstring)).

Record SheetsService := {
  (** [data.sheets], each with its [properties?.title]. *)
  spreadsheets_get :
    list SheetsCall -> jsstring -> Thrown + option (list (option jsstring));
  spreadsheets_batchUpdate :
    list SheetsCall -> jsstring -> jsstring -> Thrown + unit;
  (** [data.values]. *)
  values_get :
    list SheetsCall -> jsstring -> jsstring ->
    Thrown + option (list (list jsstring));
  values_update :
    list SheetsCall -> jsstring -> jsstring -> list (list jsstring) ->
    Thrown + unit
}.

(** How the client authenticates. *)
Inductive GoogleAuth :=
| AuthCredentials (credentials : jsstring)
| AuthKeyFile (keyFile : jsstring).

(** ** The handler monad

    A computation issues requests, appending them to the log of the
    run, and ends with a value, a thrown exception or an early
    [return res...]. *)

Inductive Exit :=
| Throws (t : Thrown)
| Returns (r : Response).

Definition M (A : Type) : Type :=
  list SheetsCall -> (Exit + A) * list SheetsCall.

#[export] Instance M_ret : MRet M := fun A a log => (inr a, log).

#[export] Instance M_bind : MBind M := fun A B f m log =>
  match m log with
  | (inr a, log') => f a log'
  | (inl e, log') => (inl e, log')
  end.

Definition throw {A} (t : Thrown) : M A := fun log => (inl (Throws t), log).

Definition returns {A} (r : Response) : M A :=
  fun log => (inl (Returns r), log).

Definition liftThrown {A} (r : Thrown + A) : M A :=
  match r with
  | inl t => throw t
  | inr a => mret a
  end.

Definition request {A} (c : SheetsCall)
    (reply : list SheetsCall -> Thrown + A) : M A :=
  fun log =>
    (match reply log with
     | inl t => inl (Throws t)
     | inr a => inr a
     end, log ++ [c]).

(** [try { m } catch (error) { h error }]. *)
Definition tryCatch {A} (m : M A) (h : Thrown -> M A) : M A := fun log =>
  match m log with
  | (inl (Throws t), log') => h t log'
  | r => r
  end.

Definition when (b : bool) (m : M unit) : M unit :=
  if b then m else mret tt.

Section Service.

Variable svc : SheetsService.

Definition getSpreadsheet (spreadsheetId : jsstring) :=
    request (SpreadsheetsGet spreadsheetId)
            (fun log => spreadsheets_get svc log spreadsheetId).

Definition addSheet (spreadsheetId title : jsstring) :=
    request (SpreadsheetsBatchUpdateAddSheet spreadsheetId title)
            (fun log => spreadsheets_batchUpdate svc log spreadsheetId title).

Definition getValues (spreadsheetId range : jsstring) :=
    request (ValuesGet spreadsheetId range)
            (fun log => values_get svc log spreadsheetId range).

Definition updateValues (spreadsheetId range : jsstring)
      (values : list (list jsstring)) :=
    request (ValuesUpdate spreadsheetId range values)
            (fun log => values_update svc log spreadsheetId range values).

End Service.

(** ** The Sheets handler, [router.post("/sheets")] *)

Definition expectedHeaders : list jsstring :=
  [ lit "Year"; lit "Set"; lit "Card Number"; lit "Listing Title";
    lit "Player First Name"; lit "Player Last Name"; lit "Grading Company";
    lit "Grade"; lit "Cert"; lit "Listing Caption"; lit "Auto Description" ].

Definition legacyHeaders : list jsstring :=
  [ lit "Year"; lit "Set"; lit "Card Number"; lit "Listing Title";
    lit "Player First Name"; lit "Player Last Name"; lit "Grading Company";
    lit "Grade"; lit "Cert"; lit "Listing Caption"; lit "Auto Title";
    lit "Auto Description" ].

Definition sheetExists (sheets : option (list (option jsstring)))
    (sheetName : jsstring) : bool :=
  match sheets with
  | Some l => existsb (fun t => bool_decide (t = Some sheetName)) l
  | None => false
  end.

Definition nextRowOf (values : option (list (list jsstring))) : nat :=
  match values with
  | Some v => length v
  | None => 0
  end + 1.

Definition notFoundResponse (spreadsheetId : jsstring) : Response :=
  jsonError 404
    (lit "Spreadsheet not found. Please check the spreadsheet ID: "
     ++ spreadsheetId).

Definition successResponse (spreadsheetId sheetName : jsstring)
    (nextRow : nat) : Response :=
  {| status := 200; headers := [];
     body :=
       SheetsBody (lit "Data exported to Google Sheets successfully")
         spreadsheetId sheetName
         (lit "https://docs.google.com/spreadsheets/d/" ++ spreadsheetId)
         nextRow |}.

(** Lines 267-302: the spreadsheet is looked up, the tab is created
    when it is missing, and the used range of the tab is read. *)
Definition readSheet (svc : SheetsService)
    (spreadsheetId sheetName : jsstring)
    : M (option (list (list jsstring))) :=
  _ ← tryCatch (_ ← getSpreadsheet svc spreadsheetId; mret tt)
        (fun _ => returns (notFoundResponse spreadsheetId));
  spreadsheet ← getSpreadsheet svc spreadsheetId;
  _ ← when (negb (sheetExists spreadsheet sheetName))
        (addSheet svc spreadsheetId sheetName);
  getValues svc spreadsheetId (sheetName ++ lit "!A:Z").

(** Lines 304-534: classification, row construction, header and row
    updates. *)
Definition writeRow (svc : SheetsService) (card : CardRecord)
    (listingTitle spreadsheetId sheetName : jsstring)
    (existingData : option (list (list jsstring))) : M Response :=
  let nextRow := nextRowOf existingData in
  let needsHeaderUpdate := fst (classify existingData) in
  let autoDescriptionColumnIndex := snd (classify existingData) in
  row ← liftThrown (buildRow card listingTitle autoDescriptionColumnIndex);
  _ ← when ((nextRow =? 1) || needsHeaderUpdate)
        (let headers :=
           if autoDescriptionColumnIndex =? 11
           then legacyHeaders else expectedHeaders in
         let headerRange :=
           if autoDescriptionColumnIndex =? 11
           then sheetName ++ lit "!A1:L1" else sheetName ++ lit "!A1:K1" in
         updateValues svc spreadsheetId headerRange [headers]);
  let endColumn :=
    if autoDescriptionColumnIndex =? 11 then lit "L" else lit "K" in
  let range :=
    sheetName ++ lit "!A" ++ ofNat nextRow ++ lit ":" ++ endColumn
    ++ ofNat nextRow in
  _ ← updateValues svc spreadsheetId range [row];
  mret (successResponse spreadsheetId sheetName nextRow).

(** Lines 204-534: everything the handler does once it has a client. *)
Definition writeSheet (svc : SheetsService) (card : CardRecord)
    (spreadsheetId sheetName : jsstring) : M Response :=
  let listingTitle := sheetsListingTitle card in
  existingData ← readSheet svc spreadsheetId sheetName;
  writeRow svc card listingTitle spreadsheetId sheetName existingData.

(** Lines 166-200: the credentials, or the response that reports them
    missing. *)
Definition credentialsMissingProduction : jsstring :=
  lit "Google Sheets service account credentials not found. In production, you must set GOOGLE_SHEETS_CREDENTIALS_JSON environment variable. Copy the entire contents of your service account JSON file and set it as an environment variable.".

Definition credentialsMissing : jsstring :=
  lit "Google Sheets service account credentials not found. Check GOOGLE_SHEETS_SERVICE_ACCOUNT_KEY or GOOGLE_SHEETS_CREDENTIALS_JSON in .env".

Definition googleAuth (p : Platform) (config : Config.t)
    : Response + GoogleAuth :=
  match Config.serviceAccountKeyJson (Config.sheets config) with
  | Some credentials => inr (AuthCredentials credentials)
  | None =>
      let key := Config.serviceAccountKey (Config.sheets config) in
      let credentialsPath :=
        if truthy key then
          Some (if path_isAbsolute p key then key else path_joinDirname p key)
        else None in
      match credentialsPath with
      | Some path =>
          if fs_existsSync p path then inr (AuthKeyFile path)
          else if strictEq (Config.nodeEnv config) (lit "production")
          then inl (jsonError 500 credentialsMissingProduction)
          else inl (jsonError 500 credentialsMissing)
      | None =>
          if strictEq (Config.nodeEnv config) (lit "production")
          then inl (jsonError 500 credentialsMissingProduction)
          else inl (jsonError 500 credentialsMissing)
      end
  end.

(** Line 157. *)
Definition resolveSpreadsheetId (config : Config.t) (req : Request.body)
    : option jsstring :=
  if truthy (Config.spreadsheetId (Config.sheets config))
  then Some (Config.spreadsheetId (Config.sheets config))
  else Request.spreadsheetId req.

(** Line 158. *)
Definition resolveSheetName (config : Config.t) (req : Request.body)
    : jsstring :=
  orElse (Config.sheetName (Config.sheets config))
         (orElseOpt (Request.sheetName req) (lit "Cards")).

(** Lines 535-542: the [catch] of the handler. *)
Definition errorMessage (error : Thrown) : jsstring :=
  match error with
  | ErrorObject message => message
  | OtherValue => lit "Unknown error"
  end.

Definition failureResponse (config : Config.t) (error : Thrown) : Response :=
  {| status := 500; headers := [];
     body :=
       ErrorBody (lit "Google Sheets export failed")
         (if strictEq (Config.nodeEnv config) (lit "development")
          then Some (errorMessage error) else None) |}.

(** The outcome of one request: the response, the card store and the
    requests sent to the spreadsheet service, oldest first. *)
Record Outcome := {
  response : Response;
  cards : CardStore;
  calls : list SheetsCall
}.

Definition exportSheets (p : Platform) (client : GoogleAuth -> SheetsService)
    (config : Config.t) (store : CardStore) (req : Request.body) : Outcome :=
  if negb (truthyOpt (Request.cardId req)) then
    {| response := jsonError 400 (lit "Card ID is required");
       cards := store; calls := [] |}
  else
    let cardId := orElseOpt (Request.cardId req) [] in
    match store !! cardId with
    | None =>
        {| response := jsonError 404 (lit "Card not found");
           cards := store; calls := [] |}
    | Some card =>
        let '(store, card) := swapRepair store cardId card in
        let sheetName := resolveSheetName config req in
        match resolveSpreadsheetId config req with
        | Some (c :: s) =>
            let spreadsheetId := c :: s in
            match googleAuth p config with
            | inl r => {| response := r; cards := store; calls := [] |}
            | inr auth =>
                match writeSheet (client auth) card spreadsheetId sheetName []
                with
                | (inr r, log) | (inl (Returns r), log) =>
                    {| response := r; cards := store; calls := log |}
                | (inl (Throws error), log) =>
                    {| response := failureResponse config error;
                       cards := store; calls := log |}
                end
            end
        | _ =>
            {| response :=
                 jsonError 400
                   (lit "Google Sheets Spreadsheet ID is required. Set GOOGLE_SHEETS_SPREADSHEET_ID in .env or provide spreadsheetId in request.");
               cards := store; calls := [] |}
        end
    end.

(** ** Derived notions used to state the properties *)

(** The checks of [buildRow] on a row of the right length, folded into
    one test. *)
Definition rejects (index : nat) (row : list jsstring) : bool :=
  truthyOpt (row !! 3) && truthyOpt (row !! index)
  && (bool_decide (row !! 3 = row !! index)
      || (lengthOpt (row !! index) <? lengthOpt (row !! 3))).

(** The card store after a request: both handlers only run the swap
    repair on the requested card. *)
Definition storeAfter (store : CardStore) (req : Request.body) : CardStore :=
  match Request.cardId req with
  | Some (c :: s) =>
      match store !! (c :: s) with
      | Some card => fst (swapRepair store (c :: s) card)
      | None => store
      end
  | _ => store
  end.

(** A row is turned down when the title and the description cells are
    both non-empty and the title equals the description or is longer. *)
Definition Rejected (index : nat) (row : list jsstring) : Prop :=
  exists a b, row !! 3 = Some a /\ row !! index = Some b
    /\ a <> [] /\ b <> [] /\ (a = b \/ length b < length a).

(** The value under a column of a CSV response. *)
Definition column (name : jsstring) (b : ResponseBody) : option jsstring :=
  match b with
  | CsvBody data =>
      snd <$> List.find (fun kv => strictEq (fst kv) name) data
  | _ => None
  end.

(** ** Sample records *)

Definition troutFields : NormalizedFields :=
  {| year := lit "2020"; set := lit "Topps"; cardNumber := lit "42";
     title := lit "2020 Topps #42 Mike Trout PSA 9";
     playerFirstName := lit "Mike"; playerLastName := lit "Trout";
     gradingCompany := lit "PSA"; grade := lit "9";
     cert := lit "12345678"; caption := lit "Centered, sharp corners" |}.

Definition untitledFields : NormalizedFields :=
  {| year := []; set := []; cardNumber := []; title := [];
     playerFirstName := []; playerLastName := [];
     gradingCompany := []; grade := []; cert := []; caption := [] |}.

(** A well-formed title with a description shorter than it. *)
Definition terseCard : CardRecord :=
  {| normalized := troutFields;
     autoTitle := Some (lit "2020 Topps Chrome Mike Trout PSA 9");
     autoDescription := Some (lit "Nice card.") |}.

(** No generated title yet, and a description equal to the normalized
    title. *)
Definition echoCard : CardRecord :=
  {| normalized := troutFields;
     autoTitle := None;
     autoDescription := Some (lit "2020 Topps #42 Mike Trout PSA 9") |}.

(** Scenario C: a 300-unit title and a 60-unit description. *)
Definition transposedCard : CardRecord :=
  {| normalized := troutFields;
     autoTitle := Some (repeat 97%N 300);
     autoDescription := Some (repeat 98%N 60) |}.

(** A long title next to a description that is present but empty. *)
Definition blankDescriptionCard : CardRecord :=
  {| normalized := troutFields;
     autoTitle := Some (repeat 97%N 201);
     autoDescription := Some [] |}.

(** Generation still in flight: neither generated field is present. *)
Definition pendingCard : CardRecord :=
  {| normalized := troutFields;
     autoTitle := None;
     autoDescription := None |}.

Definition untitledCard : CardRecord :=
  {| normalized := untitledFields;
     autoTitle := Some (lit "Untitled");
     autoDescription := Some (lit "Untitled") |}.

Definition requestFor (cardId : jsstring) : Request.body :=
  {| Request.cardId := Some cardId;
     Request.spreadsheetId := None;
     Request.sheetName := None |}.


(** The request [req] with another [sheetName] in its body. *)
Definition withSheetName (name : option jsstring) (req : Request.body)
    : Request.body :=
  {| Request.cardId := Request.cardId req;
     Request.spreadsheetId := Request.spreadsheetId req;
     Request.sheetName := name |}.

(** Requests that write cell values. *)
Definition isValuesUpdate (c : SheetsCall) : bool :=
  match c with
  | ValuesUpdate _ _ _ => true
  | _ => false
  end.

(** ** A sample deployment *)

Definition samplePlatform : Platform :=
  {| JSON_parse_truthy := fun _ => true;
     path_isAbsolute := fun _ => false;
     path_joinDirname := fun s => lit "/app/" ++ s;
     fs_existsSync := fun _ => false |}.


(** A spreadsheet with a "Cards" tab and no cell filled, on which
    every request succeeds. *)
Definition emptySheet : SheetsService :=
  {| spreadsheets_get := fun _ _ => inr (Some [Some (lit "Cards")]);
     spreadsheets_batchUpdate := fun _ _ _ => inr tt;
     values_get := fun _ _ _ => inr None;
     values_update := fun _ _ _ _ => inr tt |}.



(** NODE_ENV unset: the configuration falls back to "development". *)
Definition developmentEnv : ProcessEnv :=
  <[ lit "GOOGLE_SHEETS_SPREADSHEET_ID" := lit "sheet-1" ]>
  (<[ lit "GOOGLE_SHEETS_CREDENTIALS_JSON" := lit "{}" ]> ∅).


(** Scenario A: an empty generated title and a description longer than
    the normalized title. *)
Definition describedCard : CardRecord :=
  {| normalized := troutFields;
     autoTitle := Some [];
     autoDescription :=
       Some (lit "Great card with sharp corners and perfect centering.") |}.

(** Scenario E: a title that runs on into the description. *)
Definition longDescription : jsstring :=
  lit "Great Card for any collector of modern baseball, with sharp corners, clean edges, a flawless surface and perfect centering on both sides.".

Definition runOnCard : CardRecord :=
  {| normalized := troutFields;
     autoTitle :=
       Some (lit "2020 Topps Chrome Mike Trout PSA 9 , " ++ longDescription);
     autoDescription := Some longDescription |}.

(** The same without a name-like boundary after a comma. *)
Definition runOnNoBoundaryCard : CardRecord :=
  {| normalized := troutFields;
     autoTitle := Some (repeat 120%N 120 ++ longDescription);
     autoDescription := Some longDescription |}.


(** ** Notions used to state the properties of the configuration, the
    classifier and the requests *)

(** Lines 179-183 for a non-empty [serviceAccountKey]: the path of the
    key file. *)
Definition credentialsPath (p : Platform) (config : Config.t) : jsstring :=
  let key := Config.serviceAccountKey (Config.sheets config) in
  if path_isAbsolute p key then key else path_joinDirname p key.

(** The header of lines 452-483 for a description column index. *)
Definition headersFor (index : nat) : list jsstring :=
  if index =? 11 then legacyHeaders else expectedHeaders.

(** The header row the handler relies on when the tab already has
    rows: the one it writes, or the existing one when it writes none. *)
Definition headerInUse (h : list jsstring) (rest : list (list jsstring))
    : list jsstring :=
  if fst (classify (Some (h :: rest)))
  then headersFor (snd (classify (Some (h :: rest))))
  else h.

(** A header whose first ten cells are not the expected ones. *)
Definition shuffledHeaders : list jsstring :=
  [ lit "Set"; lit "Year"; lit "No."; lit "Name"; lit "First"; lit "Last";
    lit "Company"; lit "Score"; lit "Id"; lit "Notes"; lit "Auto Description" ].


(** ** Notions used to state the properties of the title pattern *)

(** A run of code units that one quantified class can consume. *)
Definition fits (r : Rep) (seg : jsstring) : Prop :=
  rmin r <= length seg
  /\ (forall m, rmax r = Some m -> length seg <= m)
  /\ Forall (fun c => cls r c = true) seg.

(** The text the pattern requires after the captured title: optional
    whitespace, a comma, optional whitespace and two capitalized words
    separated by whitespace. *)
Definition Boundary (rest : jsstring) : Prop :=
  exists ws1 ws2 u1 l1 ws3 u2 l2 tl,
    rest = ws1 ++ [44%N] ++ ws2 ++ [u1] ++ l1 ++ ws3 ++ [u2] ++ l2 ++ tl
    /\ Forall (fun c => isWhiteSpace c = true) ws1
    /\ Forall (fun c => isWhiteSpace c = true) ws2
    /\ upper u1 = true
    /\ Forall (fun c => lower c = true) l1 /\ l1 <> []
    /\ Forall (fun c => isWhiteSpace c = true) ws3 /\ ws3 <> []
    /\ upper u2 = true
    /\ Forall (fun c => lower c = true) l2 /\ l2 <> [].


(** ** Notions used to state the properties of the Sheets handler *)

(** The handler gets as far as the spreadsheet service: the request
    names a stored card, a spreadsheet id is configured or supplied and
    credentials are found. *)
Definition ready (p : Platform) (config : Config.t) (store : CardStore)
    (req : Request.body) (cardId spreadsheetId : jsstring)
    (card0 : CardRecord) (auth : GoogleAuth) : Prop :=
  Request.cardId req = Some cardId /\ cardId <> []
  /\ store !! cardId = Some card0
  /\ resolveSpreadsheetId config req = Some spreadsheetId
  /\ spreadsheetId <> []
  /\ googleAuth p config = inr auth.

(** Line 449: whether the header row is written. *)
Definition headerNeeded (existingData : option (list (list jsstring)))
    : bool :=
  (nextRowOf existingData =? 1) || fst (classify existingData).

(** Lines 486-488 and 505-506: the ranges of the two updates. *)
Definition headerRange (sheetName : jsstring) (index : nat) : jsstring :=
  if index =? 11 then sheetName ++ lit "!A1:L1" else sheetName ++ lit "!A1:K1".

Definition rowRange (sheetName : jsstring) (index nextRow : nat) : jsstring :=
  sheetName ++ lit "!A" ++ ofNat nextRow ++ lit ":"
  ++ (if index =? 11 then lit "L" else lit "K") ++ ofNat nextRow.

(** The two updates of a call, for the data read from the tab. *)
Definition headerUpdate (spreadsheetId sheetName : jsstring)
    (existingData : option (list (list jsstring))) : SheetsCall :=
  let index := snd (classify existingData) in
  ValuesUpdate spreadsheetId (headerRange sheetName index) [headersFor index].

Definition rowUpdate (spreadsheetId sheetName : jsstring)
    (existingData : option (list (list jsstring))) (row : list jsstring)
    : SheetsCall :=
  let index := snd (classify existingData) in
  ValuesUpdate spreadsheetId
    (rowRange sheetName index (nextRowOf existingData)) [row].

(** The updates sent for a row that passed the checks, when none of
    them fails. *)
Definition updates (spreadsheetId sheetName : jsstring)
    (existingData : option (list (list jsstring))) (row : list jsstring)
    : list SheetsCall :=
  (if headerNeeded existingData
   then [headerUpdate spreadsheetId sheetName existingData] else [])
  ++ [rowUpdate spreadsheetId sheetName existingData row].

(** The spreadsheet a request is addressed to. *)
Definition callSpreadsheet (c : SheetsCall) : jsstring :=
  match c with
  | SpreadsheetsGet spreadsheetId
  | SpreadsheetsBatchUpdateAddSheet spreadsheetId _
  | ValuesGet spreadsheetId _
  | ValuesUpdate spreadsheetId _ _ => spreadsheetId
  end.

(** A request that names a tab names [sheetName]. *)
Definition onTab (sheetName : jsstring) (c : SheetsCall) : Prop :=
  match c with
  | SpreadsheetsGet _ => True
  | SpreadsheetsBatchUpdateAddSheet _ title => title = sheetName
  | ValuesGet _ range | ValuesUpdate _ range _ =>
      exists cells, range = sheetName ++ lit "!" ++ cells
  end.

(** A request addressed to a spreadsheet and, where it names a tab, to
    a tab of that name. *)
Definition addressedTo (spreadsheetId sheetName : jsstring)
    (c : SheetsCall) : Prop :=
  callSpreadsheet c = spreadsheetId /\ onTab sheetName c.

(** A service that answers every request. *)
Definition Reliable (svc : SheetsService) : Prop :=
  (forall log sid, exists sheets, spreadsheets_get svc log sid = inr sheets)
  /\ (forall log sid title, spreadsheets_batchUpdate svc log sid title = inr tt)
  /\ (forall log sid range, exists values,
        values_get svc log sid range = inr values)
  /\ (forall log sid range values,
        values_update svc log sid range values = inr tt).

(** The request [req] with another [spreadsheetId] in its body. *)
Definition withSpreadsheetId (spreadsheetId : option jsstring)
    (req : Request.body) : Request.body :=
  {| Request.cardId := Request.cardId req;
     Request.spreadsheetId := spreadsheetId;
     Request.sheetName := Request.sheetName req |}.

(** ** More sample deployments *)

(** No spreadsheet id and no credentials in the environment. *)
Definition bareEnv : ProcessEnv := ∅.

(** A spreadsheet that cannot be looked up. *)
Definition unknownSpreadsheet : SheetsService :=
  {| spreadsheets_get :=
       fun _ _ => inl (ErrorObject (lit "Requested entity was not found."));
     spreadsheets_batchUpdate := fun _ _ _ => inr tt;
     values_get := fun _ _ _ => inr None;
     values_update := fun _ _ _ _ => inr tt |}.

(** A spreadsheet whose only tab is "Sheet1". *)
Definition otherTabSheet : SheetsService :=
  {| spreadsheets_get := fun _ _ => inr (Some [Some (lit "Sheet1")]);
     spreadsheets_batchUpdate := fun _ _ _ => inr tt;
     values_get := fun _ _ _ => inr None;
     values_update := fun _ _ _ _ => inr tt |}.

(** A spreadsheet that can be read and not written. *)
Definition readOnlySheet : SheetsService :=
  {| spreadsheets_get := fun _ _ => inr (Some [Some (lit "Cards")]);
     spreadsheets_batchUpdate := fun _ _ _ => inr tt;
     values_get := fun _ _ _ => inr None;
     values_update :=
       fun _ _ _ _ =>
         inl (ErrorObject (lit "The caller does not have permission")) |}.

(** The requests of the read phase: two lookups of the spreadsheet,
    the creation of the tab when it is missing, the read of the tab. *)
Definition lookups (spreadsheetId : jsstring) : list SheetsCall :=
  [SpreadsheetsGet spreadsheetId; SpreadsheetsGet spreadsheetId].

Definition readCalls (spreadsheetId sheetName : jsstring) (tabExists : bool)
    : list SheetsCall :=
  lookups spreadsheetId
  ++ (if tabExists then []
      else [SpreadsheetsBatchUpdateAddSheet spreadsheetId sheetName])
  ++ [ValuesGet spreadsheetId (sheetName ++ lit "!A:Z")].


(** A record whose generated title is the description and whose
    normalized title has 215 code units and ends with the description. *)
Definition verboseTitleCard : CardRecord :=
  {| normalized :=
       {| year := lit "2020"; set := lit "Topps"; cardNumber := lit "42";
          title := repeat 120%N 210 ++ lit "Mint.";
          playerFirstName := lit "Mike"; playerLastName := lit "Trout";
          gradingCompany := lit "PSA"; grade := lit "9";
          cert := lit "12345678"; caption := [] |};
     autoTitle := Some (lit "Mint.");
     autoDescription := Some (lit "Mint.") |}.

(** The configuration of the sample deployment. *)
Definition sampleConfig : Config.t := loadConfig samplePlatform developmentEnv.

(** ** Notions used to state the bounds of the repair chain *)

(** Lines 55-57 and 213-215: the title the chain starts from. *)
Definition initialTitle (card : CardRecord) : jsstring :=
  match autoTitle card with
  | Some t =>
      if truthy t && negb (strictEq (trim t) [])
      then t else title (normalized card)
  | None => title (normalized card)
  end.

(** Lines 62 and 220: the test of the embedded-description repair. *)
Definition embeddedDefect (listingTitle d : jsstring) : bool :=
  (150 <? length listingTitle) && includes listingTitle (substring0 d 50).

(** Lines 67-75 and 227-235: what the embedded-description repair
    leaves of a title. *)
Definition cutTitle (listingTitle : jsstring) : jsstring :=
  match titleMatch listingTitle with
  | Some g =>
      if truthy g then trim g else trim (substring0 listingTitle 100)
  | None => trim (substring0 listingTitle 100)
  end.

(** A title that runs on into a description of more than 150 units. *)
Definition extendedDescription : jsstring :=
  longDescription
  ++ lit " It comes from a smoke-free home and ships in a rigid case.".

Definition runOnLongCard : CardRecord :=
  {| normalized := troutFields;
     autoTitle :=
       Some (lit "2020 Topps Chrome Mike Trout PSA 9 , " ++ extendedDescription);
     autoDescription := Some extendedDescription |}.

(** * Properties *)

(** ** Strings *)

Lemma truthy_true (s : jsstring) : truthy s = true <-> s <> [].
Proof. destruct s; simpl; split; congruence. Qed.

Lemma truthy_false (s : jsstring) : truthy s = false <-> s = [].
Proof. destruct s; simpl; split; congruence. Qed.

Lemma truthy_length (s : jsstring) : 0 < length s -> truthy s = true.
Proof. destruct s; simpl; [lia | reflexivity]. Qed.

Lemma strictEq_true (a b : jsstring) : strictEq a b = true <-> a = b.
Proof. unfold strictEq. apply bool_decide_eq_true. Qed.

Lemma strictEq_false (a b : jsstring) : strictEq a b = false <-> a <> b.
Proof. unfold strictEq. apply bool_decide_eq_false. Qed.

Lemma strictEq_length (a b : jsstring) :
  length a <> length b -> strictEq a b = false.
Proof. intros H. apply strictEq_false. congruence. Qed.

Lemma orElse_truthy (a d : jsstring) : a <> [] -> orElse a d = a.
Proof. intros H. unfold orElse. apply truthy_true in H. now rewrite H. Qed.

Lemma orElse_nil (a : jsstring) : orElse a [] = a.
Proof. now destruct a. Qed.

Lemma orElseOpt_nil_nonempty (o : option jsstring) (s : jsstring) :
  orElseOpt o [] = s -> s <> [] -> o = Some s.
Proof.
  destruct o as [a|]; simpl; [rewrite orElse_nil|]; congruence.
Qed.

Lemma trim_nonempty (s : jsstring) : trim s <> [] -> s <> [].
Proof. intros H ->. now apply H. Qed.

(** Closed goals on concrete records are settled by evaluation. *)
Ltac by_eval :=
  vm_compute;
  repeat match goal with |- _ /\ _ => split end;
  first [ reflexivity | discriminate | lia
        | intros ?; first [ discriminate | lia ] ].

(** ** Field-integrity validation *)

Section Validator.

Variables (store : CardStore) (cardId : jsstring) (card : CardRecord).

Lemma swapRepair_defect :
  swapDefect card = true ->
  swapRepair store cardId card
  = (<[cardId := swapFields card]> store, swapFields card).
Proof. unfold swapRepair. now intros ->. Qed.

Lemma swapRepair_clean :
  swapDefect card = false -> swapRepair store cardId card = (store, card).
Proof. unfold swapRepair. now intros ->. Qed.

Lemma swapDefect_spec (t d : jsstring) :
  autoTitle card = Some t -> autoDescription card = Some d ->
  swapDefect card = true <-> (d <> [] /\ 200 < length t /\ length d < 100).
Proof.
  intros Ht Hd. unfold swapDefect. rewrite Ht, Hd. simpl.
  rewrite !andb_true_iff, !truthy_true, Nat.ltb_lt, Nat.ltb_lt.
  split.
  - tauto.
  - intros (Hne & Hlen & Hlt). repeat split; try assumption.
    intros ->. simpl in Hlen. lia.
Qed.

Lemma swapFields_normalized :
  normalized (swapFields card) = normalized card.
Proof. reflexivity. Qed.

Lemma swapRepair_normalized :
  normalized (snd (swapRepair store cardId card)) = normalized card.
Proof. unfold swapRepair. now destruct (swapDefect card). Qed.

End Validator.

(** After the swap the title is the short former description, which
    none of the later repairs touches. *)
Lemma listingTitle_short (card : CardRecord) (t d : jsstring) :
  autoTitle card = Some t -> autoDescription card = Some d ->
  trim t <> [] -> length t < 100 -> 200 < length d ->
  csvListingTitle card = t /\ sheetsListingTitle card = t.
Proof.
  intros Ht Hd Htrim Hlt Hld.
  assert (Htt : truthy t = true) by (apply truthy_true; eauto using trim_nonempty).
  assert (Htd : truthy d = true) by (apply truthy_length; lia).
  assert (Htr : strictEq (trim t) [] = false) by now apply strictEq_false.
  assert (H150 : (150 <? length t) = false) by (apply Nat.ltb_ge; lia).
  assert (H200 : (200 <? length t) = false) by (apply Nat.ltb_ge; lia).
  assert (Hne : strictEq t d = false) by (apply strictEq_length; lia).
  unfold csvListingTitle, sheetsListingTitle.
  rewrite Ht, Hd. simpl.
  rewrite (orElse_truthy d) by now apply truthy_true.
  rewrite Htt, Htr. simpl. rewrite Htt, Htd. simpl.
  rewrite H150. simpl. rewrite Hne. simpl.
  rewrite Htt. simpl. rewrite Hne, H200. auto.
Qed.

(** ** Row construction *)

Section RowBuilder.

Variables (card : CardRecord) (listingTitle : jsstring) (index : nat).

Lemma rowData_length :
  length (rowData card listingTitle index) = expectedLength index.
Proof. unfold rowData, expectedLength. now destruct (index =? 11). Qed.

Lemma rowData_title : rowData card listingTitle index !! 3 = Some listingTitle.
Proof.
  unfold rowData. destruct (index =? 11); simpl; now rewrite orElse_nil.
Qed.

Lemma rowData_description :
  index = 10 \/ index = 11 ->
  rowData card listingTitle index !! index
  = Some (orElseOpt (autoDescription card) []).
Proof. intros [-> | ->]; reflexivity. Qed.

Lemma buildRow_rejects :
  rejects index (rowData card listingTitle index) = true ->
  buildRow card listingTitle index = inl identicalError
  \/ buildRow card listingTitle index = inl longerError.
Proof.
  unfold rejects, buildRow. rewrite rowData_length, Nat.eqb_refl. simpl.
  destruct (truthyOpt (_ !! 3)), (truthyOpt (_ !! index)); simpl;
    try discriminate.
  destruct (bool_decide _); simpl; [now left|]. intros ->. now right.
Qed.

Lemma buildRow_accepts :
  rejects index (rowData card listingTitle index) = false ->
  buildRow card listingTitle index = inr (rowData card listingTitle index).
Proof.
  unfold rejects, buildRow. rewrite rowData_length, Nat.eqb_refl. simpl.
  destruct (truthyOpt (_ !! 3)), (truthyOpt (_ !! index)); simpl;
    try reflexivity.
  destruct (bool_decide _); simpl; [discriminate|]. now intros ->.
Qed.

Lemma buildRow_inr (row : list jsstring) :
  buildRow card listingTitle index = inr row ->
  row = rowData card listingTitle index /\ rejects index row = false.
Proof.
  destruct (rejects index (rowData card listingTitle index)) eqn:E.
  - destruct (buildRow_rejects E) as [-> | ->]; discriminate.
  - rewrite (buildRow_accepts E). intros [= <-]. auto.
Qed.

End RowBuilder.

Lemma exportCsv_cards (store : CardStore) (req : Request.body) :
  snd (exportCsv store req) = storeAfter store req.
Proof.
  unfold exportCsv, storeAfter.
  destruct (Request.cardId req) as [[|c s]|];
    cbn [truthyOpt truthy negb orElseOpt orElse fst snd]; try reflexivity.
  destruct (store !! (c :: s)) as [card|]; [|reflexivity].
  destruct (swapRepair store (c :: s) card). cbv zeta.
  now destruct (validHeaderValue _).
Qed.

Lemma exportSheets_cards (p : Platform) (client : GoogleAuth -> SheetsService)
    (config : Config.t) (store : CardStore) (req : Request.body) :
  cards (exportSheets p client config store req) = storeAfter store req.
Proof.
  unfold exportSheets, storeAfter.
  destruct (Request.cardId req) as [[|c s]|];
    cbn [truthyOpt truthy negb orElseOpt orElse cards]; try reflexivity.
  destruct (store !! (c :: s)) as [card|]; [|reflexivity].
  destruct (swapRepair store (c :: s) card) as [store1 card1].
  cbn [fst].
  destruct (resolveSpreadsheetId config req) as [[|? ?]|]; try reflexivity.
  destruct (googleAuth p config); [reflexivity|].
  now destruct (writeSheet _ _ _ _ _) as [[[?|?]|?] ?].
Qed.

Lemma storeAfter_lookup (store : CardStore) (req : Request.body)
    (k : jsstring) (card : CardRecord) :
  store !! k = Some card ->
  storeAfter store req !! k = Some card
  \/ (Request.cardId req = Some k /\ swapDefect card = true
      /\ storeAfter store req !! k = Some (swapFields card)).
Proof.
  intros Hk. unfold storeAfter.
  destruct (Request.cardId req) as [[|c s]|]; auto.
  destruct (store !! (c :: s)) as [card0|] eqn:E0; auto.
  unfold swapRepair. destruct (swapDefect card0) eqn:Ed; simpl; auto.
  destruct (decide (c :: s = k)) as [<- | Hne].
  - right. rewrite lookup_insert_eq. assert (card0 = card) as -> by congruence.
    auto.
  - left. now rewrite lookup_insert_ne.
Qed.

Lemma rejects_Rejected (index : nat) (row : list jsstring) :
  rejects index row = true <-> Rejected index row.
Proof.
  unfold rejects, Rejected. split.
  - destruct (row !! 3) as [a|], (row !! index) as [b|]; simpl;
      try (rewrite ?andb_false_r; discriminate).
    rewrite !andb_true_iff, orb_true_iff, !truthy_true,
      bool_decide_eq_true, Nat.ltb_lt.
    intros [[Ha Hb] Hc]. exists a, b. repeat split; try assumption.
    destruct Hc as [Hc | Hc]; [left; congruence | now right].
  - intros (a & b & -> & -> & Ha & Hb & Hc). simpl.
    rewrite !andb_true_iff, orb_true_iff, !truthy_true,
      bool_decide_eq_true, Nat.ltb_lt.
    repeat split; try assumption.
    destruct Hc as [-> | Hc]; [now left | now right].
Qed.

(** ** The title pattern on sample titles *)

Example titleMatch_boundary :
  titleMatch (lit "2020 Topps Chrome Mike Trout PSA 9 , Great Card here")
  = Some (lit "2020 Topps Chrome Mike Trout PSA 9").
Proof. by_eval. Qed.

Example titleMatch_lazy :
  matchSeq titlePattern (lit "abc ,  Gr Cd, Xy   Zwww")
  = Some [3; 1; 1; 2; 1; 1; 1; 1; 1].
Proof. by_eval. Qed.

Example titleMatch_empty_group :
  titleMatch (lit ", Great Card") = Some [].
Proof. by_eval. Qed.

Example titleMatch_none :
  titleMatch (lit "2020 Topps Chrome, great card") = None.
Proof. by_eval. Qed.

(** Scenario E: the embedded description is cut off at the boundary,
    or after 100 units when there is no boundary. *)
Example runOn_extracted :
  150 < lengthOpt (autoTitle runOnCard)
  /\ csvListingTitle runOnCard = lit "2020 Topps Chrome Mike Trout PSA 9"
  /\ sheetsListingTitle runOnCard = lit "2020 Topps Chrome Mike Trout PSA 9".
Proof. by_eval. Qed.

Example runOn_truncated :
  csvListingTitle runOnNoBoundaryCard = repeat 120%N 100
  /\ sheetsListingTitle runOnNoBoundaryCard = repeat 120%N 100.
Proof. by_eval. Qed.

(** Scenario C: the swapped record exports the 60-unit text as title. *)
Example transposed_title :
  csvListingTitle (snd (swapRepair ∅ (lit "c") transposedCard))
  = repeat 98%N 60.
Proof. by_eval. Qed.

(** ** What the Sheets row builder adds

    A row that passes the checks never carries a title equal to a
    non-empty description: the guarantee the CSV path lacks. *)
Lemma buildRow_title_differs (card : CardRecord) (listingTitle d : jsstring)
    (index : nat) (row : list jsstring) :
  index = 10 \/ index = 11 -> autoDescription card = Some d -> d <> [] ->
  buildRow card listingTitle index = inr row ->
  row !! 3 = Some listingTitle /\ row !! index = Some d /\ listingTitle <> d.
Proof.
  intros Hi Hd Hdne Hb. apply buildRow_inr in Hb as [-> Hrej].
  unfold rejects in Hrej.
  rewrite rowData_title, (rowData_description _ _ _ Hi), Hd in *.
  cbn [orElseOpt truthyOpt lengthOpt] in *. rewrite orElse_nil in *.
  repeat split. intros ->.
  apply truthy_true in Hdne. rewrite Hdne in Hrej. cbn [andb] in Hrej.
  rewrite bool_decide_eq_true_2 in Hrej by reflexivity. discriminate.
Qed.

(** ** The claims *)

(** C1, counterexample.  For [terseCard] no repair applies: on both
    paths the working title is the 34-unit generated title, longer
    than the 10-unit description. *)
Lemma C1_counterexample :
  swapDefect terseCard = false
  /\ autoDescription terseCard = Some (lit "Nice card.")
  /\ csvListingTitle terseCard = lit "2020 Topps Chrome Mike Trout PSA 9"
  /\ sheetsListingTitle terseCard = lit "2020 Topps Chrome Mike Trout PSA 9"
  /\ ~ length (csvListingTitle terseCard) <= length (lit "Nice card.").
Proof. by_eval. Qed.

(** C2, the failing input.  The CSV handler exports [echoCard] with a
    Listing Title equal to its non-empty Auto Description: the identity
    repair falls back to the normalized title, which is the description
    again, and the CSV path has no further check. *)
Theorem C2_csv_title_equals_description :
  let out := fst (exportCsv {[ lit "c2" := echoCard ]} (requestFor (lit "c2"))) in
  status out = 200
  /\ column (lit "Listing Title") (body out)
     = Some (lit "2020 Topps #42 Mike Trout PSA 9")
  /\ column (lit "Auto Description") (body out)
     = Some (lit "2020 Topps #42 Mike Trout PSA 9").
Proof. by_eval. Qed.
(** C3, counterexample.  Both fields of [blankDescriptionCard] are
    present, the title has 201 units and the description 0, yet a pass
    does not swap them: the test requires both fields to be truthy and
    the empty description is not. *)
Lemma C3_counterexample :
  let store : CardStore := {[ lit "c3" := blankDescriptionCard ]} in
  is_Some (autoTitle blankDescriptionCard)
  /\ is_Some (autoDescription blankDescriptionCard)
  /\ 200 < lengthOpt (autoTitle blankDescriptionCard)
  /\ lengthOpt (autoDescription blankDescriptionCard) < 100
  /\ swapRepair store (lit "c3") blankDescriptionCard
     = (store, blankDescriptionCard)
  /\ snd (exportCsv store (requestFor (lit "c3"))) = store
  /\ swapFields blankDescriptionCard <> blankDescriptionCard.
Proof.
  cbv zeta. split; [now eexists|]. split; [now eexists|].
  split; [by_eval|]. split; [by_eval|].
  split; [reflexivity|]. split; [|by_eval].
  rewrite exportCsv_cards. reflexivity.
Qed.

(** C3, amended.  For a stored record whose title has more than 200
    units and whose description is non-empty with fewer than 100, one
    pass (in either handler) swaps the two fields and writes the record
    back under its id; a second pass on the result swaps nothing and
    leaves the store as it is. *)
Theorem C3_swap_repair_idempotent (store : CardStore) (cardId : jsstring)
    (card : CardRecord) (t d : jsstring) (req : Request.body) :
  Request.cardId req = Some cardId -> cardId <> [] ->
  store !! cardId = Some card ->
  autoTitle card = Some t -> autoDescription card = Some d -> d <> [] ->
  200 < length t -> length d < 100 ->
  let repaired := <[cardId := swapFields card]> store in
  (swapRepair store cardId card = (repaired, swapFields card)
   /\ autoTitle (swapFields card) = Some d
   /\ autoDescription (swapFields card) = Some t
   /\ snd (exportCsv store req) = repaired
   /\ forall p client config,
        cards (exportSheets p client config store req) = repaired)
  /\
  (swapRepair repaired cardId (swapFields card) = (repaired, swapFields card)
   /\ snd (exportCsv repaired req) = repaired
   /\ forall p client config,
        cards (exportSheets p client config repaired req) = repaired).
Proof.
  intros Hreq Hid Hstore Ht Hd Hdne Hlt Hld repaired.
  assert (Hdef : swapDefect card = true).
  { apply (swapDefect_spec card t d Ht Hd). auto. }
  assert (Hclean : swapDefect (swapFields card) = false).
  { unfold swapDefect, swapFields. cbn [autoTitle autoDescription].
    rewrite Ht, Hd.
    replace (200 <? length d) with false by (symmetry; apply Nat.ltb_ge; lia).
    now rewrite andb_false_r. }
  assert (Hafter : storeAfter store req = repaired).
  { unfold storeAfter. rewrite Hreq. destruct cardId as [|c s]; [easy|].
    now rewrite Hstore, (swapRepair_defect _ _ _ Hdef). }
  assert (Hafter' : storeAfter repaired req = repaired).
  { unfold storeAfter. rewrite Hreq. destruct cardId as [|c s]; [easy|].
    subst repaired. rewrite lookup_insert_eq.
    now rewrite (swapRepair_clean _ _ _ Hclean). }
  split.
  - rewrite (swapRepair_defect _ _ _ Hdef), exportCsv_cards.
    repeat split; try assumption.
    intros. now rewrite exportSheets_cards.
  - rewrite (swapRepair_clean _ _ _ Hclean), exportCsv_cards.
    repeat split; try assumption.
    intros. now rewrite exportSheets_cards.
Qed.

Lemma C3_swap_repair_idempotent_witness :
  let store : CardStore := {[ lit "c3" := transposedCard ]} in
  let repaired : CardStore := <[ lit "c3" := swapFields transposedCard ]> store in
  store !! lit "c3" = Some transposedCard
  /\ 200 < length (repeat 97%N 300) /\ length (repeat 98%N 60) < 100
  /\ swapRepair store (lit "c3") transposedCard
     = (repaired, swapFields transposedCard)
  /\ swapRepair repaired (lit "c3") (swapFields transposedCard)
     = (repaired, swapFields transposedCard).
Proof.
  cbv zeta.
  destruct (C3_swap_repair_idempotent {[ lit "c3" := transposedCard ]}
              (lit "c3") transposedCard (repeat 97%N 300) (repeat 98%N 60)
              (requestFor (lit "c3")))
    as [(H1 & _) (H2 & _)]; [by_eval .. |].
  split; [by_eval|]. split; [by_eval|]. split; [by_eval|].
  split; assumption.
Defined.

(** C4, counterexample.  For [pendingCard] the title cell has 31 units
    and the description cell none, so the third check of the claim is
    violated, and the row is built all the same: the second and third
    checks only apply when both cells are non-empty. *)
Lemma C4_counterexample :
  let listingTitle := sheetsListingTitle pendingCard in
  let row := rowData pendingCard listingTitle 10 in
  buildRow pendingCard listingTitle 10 = inr row
  /\ length row = 11
  /\ lengthOpt (row !! 10) < lengthOpt (row !! 3).
Proof. by_eval. Qed.

(** C4, amended.  The row always has the expected length (12 when the
    index is 11, else 11), so the first check never fails.  The build
    fails if and only if the title cell row[3] and the description cell
    row[index] are both non-empty and row[3] equals row[index] or is
    longer than it; otherwise it succeeds with that row. *)
Theorem C4_row_build_failure (card : CardRecord) (listingTitle : jsstring)
    (index : nat) :
  let row := rowData card listingTitle index in
  length row = expectedLength index
  /\ ((exists e, buildRow card listingTitle index = inl e)
      <-> Rejected index row)
  /\ (buildRow card listingTitle index = inr row <-> ~ Rejected index row).
Proof.
  intros row. split; [apply rowData_length|].
  destruct (rejects index row) eqn:E.
  - assert (HR : Rejected index row) by now apply rejects_Rejected.
    destruct (buildRow_rejects _ _ _ E) as [Hb | Hb]; rewrite Hb;
      (split; split; [auto | eauto | discriminate | tauto]).
  - assert (HR : ~ Rejected index row).
    { rewrite <- rejects_Rejected. congruence. }
    rewrite (buildRow_accepts _ _ _ E). fold row.
    split; split; [intros [e He]; discriminate | tauto | auto | auto].
Qed.

(** C5.  An existing header row of 12 cells whose last cell is
    "Auto Description" is classified with description column index 11,
    and the header rewrite flag is false exactly when cell 10 is
    "Auto Title". *)
Theorem C5_legacy_header_classification (h : list jsstring)
    (rest : list (list jsstring)) :
  length h = 12 -> h !! 11 = Some (lit "Auto Description") ->
  snd (classify (Some (h :: rest))) = 11
  /\ (fst (classify (Some (h :: rest))) = false
      <-> h !! 10 = Some (lit "Auto Title")).
Proof.
  intros Hlen H11. unfold classify, cellIs. rewrite Hlen, H11.
  rewrite bool_decide_eq_true_2 by reflexivity. cbn [Nat.eqb andb].
  destruct (bool_decide (h !! 10 = Some (lit "Auto Title"))) eqn:E10.
  - apply bool_decide_eq_true in E10. cbn [orb fst snd].
    split; [reflexivity|]. split; [auto|intros _].
    apply bool_decide_eq_false. rewrite E10. discriminate.
  - apply bool_decide_eq_false in E10. cbn [orb].
    destruct (bool_decide (h !! 10 = Some (lit "Auto Description"))) eqn:E;
      cbn [fst snd]; (split; [reflexivity|]); split;
      first [discriminate | contradiction].
Qed.

Lemma C5_legacy_header_classification_witness :
  length legacyHeaders = 12
  /\ legacyHeaders !! 11 = Some (lit "Auto Description")
  /\ snd (classify (Some [legacyHeaders])) = 11
  /\ (fst (classify (Some [legacyHeaders])) = false
      <-> legacyHeaders !! 10 = Some (lit "Auto Title")).
Proof.
  split; [reflexivity|]. split; [reflexivity|].
  apply (C5_legacy_header_classification legacyHeaders []); reflexivity.
Defined.

(** C8.  Whatever the request, a record of the card store keeps its
    normalized fields through a call of either handler: the record is
    left as it was, or it is the requested card, it had the swap defect
    and its two generated fields were exchanged. *)
Theorem C8_normalized_fields_preserved (p : Platform)
    (client : GoogleAuth -> SheetsService) (config : Config.t)
    (store after : CardStore) (req : Request.body) (k : jsstring)
    (card : CardRecord) :
  store !! k = Some card ->
  after = snd (exportCsv store req)
  \/ after = cards (exportSheets p client config store req) ->
  exists card',
    after !! k = Some card'
    /\ normalized card' = normalized card
    /\ (card' = card
        \/ (Request.cardId req = Some k /\ swapDefect card = true
            /\ card' = swapFields card)).
Proof.
  intros Hk Hafter.
  assert (after = storeAfter store req) as ->.
  { destruct Hafter as [-> | ->];
      [apply exportCsv_cards | apply exportSheets_cards]. }
  destruct (storeAfter_lookup store req k card Hk) as [H | (Hreq & Hd & H)].
  - exists card. auto.
  - exists (swapFields card). repeat split; auto.
Qed.

Lemma C8_normalized_fields_preserved_witness :
  let store : CardStore := {[ lit "c3" := transposedCard ]} in
  store !! lit "c3" = Some transposedCard
  /\ exists card',
       snd (exportCsv store (requestFor (lit "c3"))) !! lit "c3" = Some card'
       /\ normalized card' = troutFields.
Proof.
  cbv zeta. split; [by_eval|].
  destruct (C8_normalized_fields_preserved
              {| JSON_parse_truthy := fun _ => false;
                 path_isAbsolute := fun _ => false;
                 path_joinDirname := fun s => s;
                 fs_existsSync := fun _ => false |}
              (fun _ =>
                 {| spreadsheets_get := fun _ _ => inl OtherValue;
                    spreadsheets_batchUpdate := fun _ _ _ => inl OtherValue;
                    values_get := fun _ _ _ => inl OtherValue;
                    values_update := fun _ _ _ _ => inl OtherValue |})
              {| Config.nodeEnv := lit "development";
                 Config.sheets :=
                   {| Config.serviceAccountKey := [];
                      Config.serviceAccountKeyJson := None;
                      Config.spreadsheetId := [];
                      Config.sheetName := lit "Cards" |} |}
              {[ lit "c3" := transposedCard ]}
              (snd (exportCsv {[ lit "c3" := transposedCard ]}
                      (requestFor (lit "c3"))))
              (requestFor (lit "c3")) (lit "c3") transposedCard)
    as (card' & H1 & H2 & _); [by_eval | now left |].
  exists card'. split; assumption.
Defined.

(** C9, counterexample.  For [untitledCard] the CSV path ends with the
    title "Untitled" and the Sheets path with "Untitled Card". *)
Lemma C9_counterexample :
  csvListingTitle untitledCard = lit "Untitled"
  /\ sheetsListingTitle untitledCard = lit "Untitled Card"
  /\ csvListingTitle untitledCard <> sheetsListingTitle untitledCard.
Proof. by_eval. Qed.

(** C9, amended.  The working title of the Sheets path is that of the
    CSV path passed through one more check: when both it and the
    description are non-empty and it equals the description, or is
    longer than 200 units and contains the first 50 units of the
    description, it is replaced by the normalized title, or by
    "Untitled Card" when that is empty.  In every other case the two
    paths compute the same title. *)
Theorem C9_sheets_title_refines_csv_title (card : CardRecord) :
  sheetsListingTitle card =
  let listingTitle := csvListingTitle card in
  match autoDescription card with
  | Some d =>
      if truthy listingTitle && truthy d
         && (strictEq listingTitle d
             || ((200 <? length listingTitle)
                 && includes listingTitle (substring0 d 50)))
      then orElse (title (normalized card)) (lit "Untitled Card")
      else listingTitle
  | None => listingTitle
  end.
Proof.
  unfold sheetsListingTitle, csvListingTitle.
  destruct (autoDescription card) as [[|c d]|];
    cbn [truthyOpt truthy orElseOpt orElse andb];
    rewrite ?andb_false_r; try reflexivity.
  rewrite !andb_true_r.
  destruct (truthy _); reflexivity.
Qed.

(** ** The Sheets handler *)

Lemma lit_Cards_nonempty : lit "Cards" <> [].
Proof. discriminate. Qed.

Lemma loadConfig_sheetName (p : Platform) (env : ProcessEnv) :
  Config.sheetName (Config.sheets (loadConfig p env)) <> [].
Proof.
  cbn [loadConfig Config.sheets Config.sheetName].
  destruct (env !! lit "GOOGLE_SHEETS_SHEET_NAME") as [[|c s]|];
    cbn [orElseOpt orElse truthy]; try discriminate.
Qed.

Lemma resolveSheetName_config (config : Config.t) (req : Request.body) :
  Config.sheetName (Config.sheets config) <> [] ->
  resolveSheetName config req = Config.sheetName (Config.sheets config).
Proof. intros H. unfold resolveSheetName. now apply orElse_truthy. Qed.

(** C10.  With the configuration read from the environment, the tab
    name used by the Sheets handler is the configured [sheetName]; this
    name is never empty and is "Cards" when the variable
    GOOGLE_SHEETS_SHEET_NAME is unset; the [sheetName] of the request
    body has no effect on the outcome of the call. *)
Theorem C10_sheet_name_from_config (p : Platform) (env : ProcessEnv)
    (client : GoogleAuth -> SheetsService) (store : CardStore)
    (req : Request.body) (name : option jsstring) :
  let config := loadConfig p env in
  resolveSheetName config req = Config.sheetName (Config.sheets config)
  /\ Config.sheetName (Config.sheets config) <> []
  /\ Config.sheetName
       (Config.sheets
          (loadConfig p (delete (lit "GOOGLE_SHEETS_SHEET_NAME") env)))
     = lit "Cards"
  /\ exportSheets p client config store (withSheetName name req)
     = exportSheets p client config store req.
Proof.
  intros config. pose proof (loadConfig_sheetName p env) as Hne.
  split; [now apply resolveSheetName_config|]. split; [exact Hne|]. split.
  - cbn [loadConfig Config.sheets Config.sheetName].
    now rewrite lookup_delete_eq.
  - unfold exportSheets, resolveSpreadsheetId.
    rewrite !resolveSheetName_config by exact Hne. reflexivity.
Qed.
(** Unfolding a run of the handler monad into the cases of the
    service's replies. *)
Ltac run_monad :=
  unfold readSheet, writeRow, getSpreadsheet, addSheet, getValues,
    updateValues, tryCatch, when, liftThrown, throw, returns, request,
    mbind, M_bind, mret, M_ret in *;
  repeat (case_match; simplify_eq/=).

Section Runs.

Variables (svc : SheetsService) (card : CardRecord).
Variables (spreadsheetId sheetName : jsstring).

(** Reading the sheet sends no request that writes cell values, and
    ends early only with the 404 response. *)
Lemma readSheet_run (res : Exit + option (list (list jsstring)))
    (log : list SheetsCall) :
  readSheet svc spreadsheetId sheetName [] = (res, log) ->
  Forall (fun c => isValuesUpdate c = false) log
  /\ forall r, res = inl (Returns r) -> r = notFoundResponse spreadsheetId.
Proof.
  intros H. run_monad;
    (split; [repeat constructor | intros; simplify_eq; reflexivity]).
Qed.

(** A row that fails its checks ends the run before any request. *)
Lemma writeRow_rejected (listingTitle : jsstring)
    (existingData : option (list (list jsstring))) (e : Thrown)
    (log : list SheetsCall) :
  buildRow card listingTitle (snd (classify existingData)) = inl e ->
  writeRow svc card listingTitle spreadsheetId sheetName existingData log
  = (inl (Throws e), log).
Proof.
  intros H. unfold writeRow, mbind, M_bind, liftThrown, throw.
  now rewrite H.
Qed.



End Runs.

(** Once the card, the spreadsheet id and the credentials are found,
    the outcome of the handler is that of [writeSheet]. *)
Lemma exportSheets_writeSheet (p : Platform)
    (client : GoogleAuth -> SheetsService) (config : Config.t)
    (store : CardStore) (req : Request.body) (cardId spreadsheetId : jsstring)
    (card0 : CardRecord) (auth : GoogleAuth) :
  Request.cardId req = Some cardId -> cardId <> [] ->
  store !! cardId = Some card0 ->
  resolveSpreadsheetId config req = Some spreadsheetId ->
  spreadsheetId <> [] ->
  googleAuth p config = inr auth ->
  let run :=
    writeSheet (client auth) (snd (swapRepair store cardId card0))
      spreadsheetId (resolveSheetName config req) [] in
  response (exportSheets p client config store req)
  = match fst run with
    | inr r | inl (Returns r) => r
    | inl (Throws error) => failureResponse config error
    end
  /\ calls (exportSheets p client config store req) = snd run.
Proof.
  intros Hreq Hid Hstore Hsid Hsne Hauth run. subst run.
  unfold exportSheets. rewrite Hreq.
  destruct cardId as [|c s]; [easy|].
  cbn [truthyOpt truthy negb orElseOpt orElse]. rewrite Hstore.
  destruct (swapRepair store (c :: s) card0) as [store1 card1]. cbn [snd].
  rewrite Hsid. destruct spreadsheetId as [|c' s']; [easy|].
  rewrite Hauth.
  now destruct (writeSheet _ _ _ _ _) as [[[t|r]|r] log].
Qed.


(** ** A complete run

    The first export to an empty tab: the header and then the data row
    are written, both to the range computed from [nextRow = 1]. *)
Example first_export_calls :
  let out :=
    exportSheets samplePlatform (fun _ => emptySheet)
      (loadConfig samplePlatform developmentEnv)
      {[ lit "a" := describedCard ]} (requestFor (lit "a")) in
  status (response out) = 200
  /\ calls out
     = [ SpreadsheetsGet (lit "sheet-1"); SpreadsheetsGet (lit "sheet-1");
         ValuesGet (lit "sheet-1") (lit "Cards!A:Z");
         ValuesUpdate (lit "sheet-1") (lit "Cards!A1:K1") [expectedHeaders];
         ValuesUpdate (lit "sheet-1") (lit "Cards!A1:K1")
           [rowData describedCard (lit "2020 Topps #42 Mike Trout PSA 9") 10] ].
Proof. by_eval. Qed.

(** * Further properties of the code *)

(** ** Configuration *)

Lemma lookup_blank_or_unset (env : ProcessEnv) (k key : jsstring) :
  truthyOpt (<[k := []]> env !! key) = truthyOpt (delete k env !! key)
  /\ forall d, orElseOpt (<[k := []]> env !! key) d
               = orElseOpt (delete k env !! key) d.
Proof.
  destruct (decide (k = key)) as [-> | Hne].
  - rewrite lookup_insert_eq, lookup_delete_eq. auto.
  - rewrite lookup_insert_ne, lookup_delete_ne by assumption. auto.
Qed.

(** X1.  A variable of the environment that is set to the empty string
    is read as if it were unset: every field of the configuration takes
    its default. *)
Theorem loadConfig_blank_is_unset (p : Platform) (env : ProcessEnv)
    (k : jsstring) :
  loadConfig p (<[k := []]> env) = loadConfig p (delete k env).
Proof.
  pose proof (fun key => proj1 (lookup_blank_or_unset env k key)) as Ht.
  pose proof (fun key => proj2 (lookup_blank_or_unset env k key)) as Ho.
  unfold loadConfig, parseJsonFromEnv. now rewrite !Ho, !Ht.
Qed.

(** One step of [unescapeNewlines]. *)
Lemma unescapeNewlines_cons (c : N) (s : jsstring) :
  unescapeNewlines (c :: s)
  = match s with
    | d :: s' =>
        if ((c =? 92) && (d =? 110))%N then 10%N :: unescapeNewlines s'
        else c :: unescapeNewlines s
    | [] => [c]
    end.
Proof.
  destruct s as [|d s'].
  - destruct c as [|q]; [reflexivity|].
    do 7 (destruct q as [q|q|]; try reflexivity).
  - destruct (N.eqb_spec c 92) as [-> | Hc].
    + destruct (N.eqb_spec d 110) as [-> | Hd]; [reflexivity|].
      destruct d as [|q]; [reflexivity|].
      do 7 (destruct q as [q|q|]; try reflexivity); contradiction.
    + destruct c as [|q]; [reflexivity|].
      do 7 (destruct q as [q|q|]; try reflexivity); contradiction.
Qed.

Lemma unescapeNewlines_head (s : jsstring) :
  head s <> Some 110%N -> head (unescapeNewlines s) <> Some 110%N.
Proof.
  destruct s as [|c s]; [easy|]. rewrite unescapeNewlines_cons.
  destruct s as [|d s']; [easy|].
  destruct ((c =? 92) && (d =? 110))%N; [discriminate | easy].
Qed.

Lemma startsWith_escape (s : jsstring) :
  startsWith s [92%N; 110%N] = true
  <-> exists s', s = 92%N :: 110%N :: s'.
Proof.
  split.
  - destruct s as [|c [|d s']]; cbn [startsWith]; rewrite ?andb_false_r;
      try discriminate.
    rewrite !andb_true_iff, !N.eqb_eq. intros (<- & <- & _). eauto.
  - intros [s' ->]. cbn. now destruct s'.
Qed.

Lemma unescapeNewlines_fixed (n : nat) (s : jsstring) :
  length s <= n ->
  includes (unescapeNewlines s) [92%N; 110%N] = false
  /\ unescapeNewlines (unescapeNewlines s) = unescapeNewlines s
  /\ length (unescapeNewlines s) <= length s.
Proof.
  revert s. induction n as [|n IH]; intros s Hlen.
  - destruct s; [|simpl in Hlen; lia]. repeat split; reflexivity || lia.
  - destruct s as [|c s]; [repeat split; reflexivity || lia|].
    simpl in Hlen. rewrite unescapeNewlines_cons.
    destruct s as [|d s']; [|simpl in Hlen].
    + repeat split; try lia.
      * simpl. now rewrite andb_false_r.
      * now rewrite unescapeNewlines_cons.
    + destruct ((c =? 92) && (d =? 110))%N eqn:E.
      * destruct (IH s' ltac:(lia)) as (Hi & Hf & Hl).
        repeat split; [| |simpl; lia].
        -- cbn [includes]. rewrite Hi, orb_false_r.
           destruct (startsWith _ _) eqn:Es; [|reflexivity].
           apply startsWith_escape in Es as [? Es]. discriminate.
        -- rewrite unescapeNewlines_cons.
           destruct (unescapeNewlines s') as [|e u] eqn:Eu; [reflexivity|].
           cbn [N.eqb Pos.eqb andb]. now rewrite Hf.
      * destruct (IH (d :: s') ltac:(simpl; lia)) as (Hi & Hf & Hl).
        repeat split; [| |simpl in *; lia].
        -- cbn [includes]. rewrite Hi, orb_false_r.
           destruct (startsWith _ _) eqn:Es; [|reflexivity].
           apply startsWith_escape in Es as [u Es].
           pose proof (f_equal head Es) as Hc. cbn [head] in Hc.
           pose proof (f_equal (fun l => head (tail l)) Es) as Hh.
           cbn [head tail] in Hh. injection Hc as ->.
           assert (Hd : head (d :: s') <> Some 110%N).
           { cbn [head]. intros [= ->]. discriminate. }
           now apply unescapeNewlines_head in Hd.
        -- rewrite unescapeNewlines_cons.
           destruct (unescapeNewlines (d :: s')) as [|e u] eqn:Eu;
             [reflexivity|].
           destruct ((c =? 92) && (e =? 110))%N eqn:E'.
           ++ apply andb_true_iff in E' as [Hc He].
              apply N.eqb_eq in He as ->.
              assert (Hd : head (d :: s') <> Some 110%N).
              { simpl. intros [= ->]. rewrite Hc in E. discriminate. }
              apply unescapeNewlines_head in Hd. now rewrite Eu in Hd.
           ++ now rewrite Hf.
Qed.

(** X2.  Unescaping the credentials text replaces every escaped line
    feed: the result contains no backslash followed by [n] (the two
    code units of the literal below, which has no escape sequence),
    unescaping it again changes nothing, and it is never longer than
    the input. *)
Theorem unescapeNewlines_complete (s : jsstring) :
  includes (unescapeNewlines s) (lit "\n") = false
  /\ unescapeNewlines (unescapeNewlines s) = unescapeNewlines s
  /\ length (unescapeNewlines s) <= length s.
Proof. exact (unescapeNewlines_fixed (length s) s (le_n _)). Qed.

(** X3.  With the configuration read from the environment, the key
    file path is never missing, and the handler finds no credentials
    exactly when the JSON variable is unset, empty or not parsed to a
    truthy value and no file exists at the key file path; parsed JSON
    credentials are used without looking at the file system. *)
Theorem googleAuth_loadConfig (p : Platform) (env : ProcessEnv) :
  let config := loadConfig p env in
  let json :=
    parseJsonFromEnv p (env !! lit "GOOGLE_SHEETS_CREDENTIALS_JSON") in
  Config.serviceAccountKey (Config.sheets config) <> []
  /\ ((exists r, googleAuth p config = inl r)
      <-> json = None /\ fs_existsSync p (credentialsPath p config) = false)
  /\ (forall credentials, json = Some credentials ->
        googleAuth p config = inr (AuthCredentials credentials))
  /\ (json = None -> fs_existsSync p (credentialsPath p config) = true ->
        googleAuth p config = inr (AuthKeyFile (credentialsPath p config))).
Proof.
  intros config json.
  assert (Hkey : Config.serviceAccountKey (Config.sheets config) <> []).
  { unfold config. cbn [loadConfig Config.sheets Config.serviceAccountKey].
    destruct (env !! lit "GOOGLE_SHEETS_SERVICE_ACCOUNT_KEY") as [[|c s]|];
      cbn [orElseOpt orElse truthy]; discriminate. }
  split; [exact Hkey|].
  unfold googleAuth, credentialsPath.
  change (Config.serviceAccountKeyJson (Config.sheets config)) with json.
  apply truthy_true in Hkey. rewrite Hkey.
  destruct json as [credentials|].
  - split; [|split]; [|intros ? [= <-]; reflexivity|discriminate].
    split; [intros [r Hr]; discriminate | intros [? _]; discriminate].
  - destruct (fs_existsSync p _).
    + split; [|split]; [|discriminate|reflexivity].
      split; [intros [r Hr]; discriminate | intros [_ ?]; discriminate].
    + split; [|split]; [|discriminate|discriminate].
      split; [auto|intros _].
      destruct (strictEq _ _); eauto.
Qed.

Lemma googleAuth_loadConfig_witness :
  googleAuth samplePlatform (loadConfig samplePlatform developmentEnv)
  = inr (AuthCredentials (lit "{}")).
Proof.
  apply (proj1 (proj2 (proj2 (googleAuth_loadConfig samplePlatform
                                developmentEnv)))).
  by_eval.
Defined.

(** ** Schema classification *)

Section Classifier.

Variables (h : list jsstring) (rest : list (list jsstring)).

Lemma AT_not_AD : Some (lit "Auto Title") <> Some (lit "Auto Description").
Proof. discriminate. Qed.

(** The index is read off the width of the header row. *)
Lemma classify_snd (values : option (list (list jsstring))) :
  snd (classify values)
  = match values with
    | Some (header :: _) => if 11 <? length header then 11 else 10
    | _ => 10
    end.
Proof.
  destruct values as [[|header others]|]; try reflexivity.
  unfold classify.
  destruct (length header =? 12) eqn:E12.
  - apply Nat.eqb_eq in E12. rewrite E12.
    destruct (cellIs header 11 _); cbn [andb];
      [destruct (_ || _); reflexivity | reflexivity].
  - cbn [andb]. destruct (length header =? 11) eqn:E11.
    + apply Nat.eqb_eq in E11. rewrite E11.
      destruct (cellIs header 10 _); reflexivity.
    + reflexivity.
Qed.

(** X4.  The description column index depends on the width of the
    existing header row alone: it is 11 when that row has more than 11
    cells and 10 otherwise, also when the tab has no row. *)
Theorem classify_index (values : option (list (list jsstring))) :
  snd (classify values)
  = match values with
    | Some (header :: _) => if 11 <? length header then 11 else 10
    | _ => 10
    end.
Proof. exact (classify_snd values). Qed.

(** The header rows that are kept. *)
Lemma classify_fst_false :
  fst (classify (Some (h :: rest))) = false
  <-> (length h = 12 /\ h !! 10 = Some (lit "Auto Title")
       /\ h !! 11 = Some (lit "Auto Description"))
      \/ (length h = 11 /\ h !! 10 = Some (lit "Auto Description")).
Proof.
  unfold classify, cellIs.
  destruct (length h =? 12) eqn:E12;
    [apply Nat.eqb_eq in E12 | apply Nat.eqb_neq in E12].
  - destruct (bool_decide (h !! 11 = Some (lit "Auto Description"))) eqn:E;
      [apply bool_decide_eq_true in E | apply bool_decide_eq_false in E];
      cbn [andb].
    + destruct (bool_decide (h !! 10 = Some (lit "Auto Title"))) eqn:Et;
        [apply bool_decide_eq_true in Et | apply bool_decide_eq_false in Et];
        cbn [orb].
      * cbn [fst]. rewrite bool_decide_eq_false. split; [auto|intros _].
        rewrite Et. apply AT_not_AD.
      * destruct (bool_decide (h !! 10 = Some (lit "Auto Description")))
          eqn:Ed; cbn [fst];
          (split; [discriminate|]); intros [(_ & ? & _) | (? & _)];
          first [contradiction | lia].
    + rewrite E12. cbn [Nat.eqb andb fst].
      split; [discriminate|]. intros [(_ & _ & ?) | (? & _)];
        first [contradiction | lia].
  - cbn [andb]. destruct (length h =? 11) eqn:E11;
      [apply Nat.eqb_eq in E11 | apply Nat.eqb_neq in E11].
    + destruct (bool_decide (h !! 10 = Some (lit "Auto Description"))) eqn:Ed;
        [apply bool_decide_eq_true in Ed | apply bool_decide_eq_false in Ed];
        cbn [andb fst].
      * split; auto.
      * split; [discriminate|]. intros [(? & _) | (_ & ?)];
          first [contradiction | lia].
    + cbn [andb fst]. split; [discriminate|]. intros [(? & _) | (? & _)]; lia.
Qed.

(** X5.  An existing header row is left as it is exactly when it is
    one of the two known layouts at its end: 12 cells ending in
    "Auto Title", "Auto Description", or 11 cells ending in
    "Auto Description".  Every other header row is rewritten. *)
Theorem classify_keeps_header :
  fst (classify (Some (h :: rest))) = false
  <-> (length h = 12 /\ h !! 10 = Some (lit "Auto Title")
       /\ h !! 11 = Some (lit "Auto Description"))
      \/ (length h = 11 /\ h !! 10 = Some (lit "Auto Description")).
Proof. exact (classify_fst_false). Qed.

(** X6.  The classifier reads the width of the header row and its
    cells 10 and 11, nothing else: header rows that agree on these are
    classified alike, whatever their first ten cells and whatever rows
    follow them. *)
Theorem classify_reads_two_cells (h' : list jsstring)
    (rest' : list (list jsstring)) :
  length h = length h' -> h !! 10 = h' !! 10 -> h !! 11 = h' !! 11 ->
  classify (Some (h :: rest)) = classify (Some (h' :: rest')).
Proof.
  intros Hlen H10 H11. unfold classify, cellIs. now rewrite Hlen, H10, H11.
Qed.

(** X7.  The header the handler writes is one the classifier keeps:
    on the next call it is classified with the same description column
    index and without a rewrite. *)
Theorem classify_written_header (values : option (list (list jsstring))) :
  classify (Some (headersFor (snd (classify values)) :: rest))
  = (false, snd (classify values)).
Proof.
  rewrite classify_snd.
  destruct values as [[|header others]|]; try reflexivity.
  destruct (11 <? length header); reflexivity.
Qed.

(** X8.  When the tab already has rows, the header row in use (the one
    written, or the existing one when none is written) reads
    "Auto Description" at the description column index, where the row
    carries the description, and has as many cells as the row. *)
Theorem header_row_alignment (card : CardRecord) (listingTitle : jsstring) :
  let index := snd (classify (Some (h :: rest))) in
  let row := rowData card listingTitle index in
  headerInUse h rest !! index = Some (lit "Auto Description")
  /\ row !! index = Some (orElseOpt (autoDescription card) [])
  /\ length (headerInUse h rest) = length row.
Proof.
  intros index row. unfold headerInUse. fold index.
  assert (Hi : index = 10 \/ index = 11).
  { unfold index. rewrite classify_snd.
    destruct (11 <? length h); auto. }
  split; [|split].
  - destruct (fst (classify (Some (h :: rest)))) eqn:E.
    + destruct Hi as [-> | ->]; reflexivity.
    + apply classify_fst_false in E.
      unfold index. rewrite classify_snd.
      destruct E as [(Hl & _ & H11) | (Hl & H10)]; now rewrite Hl.
  - now apply rowData_description.
  - unfold row. rewrite rowData_length.
    destruct (fst (classify (Some (h :: rest)))) eqn:E.
    + destruct Hi as [-> | ->]; reflexivity.
    + apply classify_fst_false in E.
      unfold index. rewrite classify_snd.
      destruct E as [(Hl & _ & H11) | (Hl & H10)]; now rewrite Hl.
Qed.

End Classifier.

Lemma classify_reads_two_cells_witness :
  classify (Some [expectedHeaders]) = classify (Some [shuffledHeaders; []]).
Proof.
  apply (classify_reads_two_cells expectedHeaders [] shuffledHeaders [[]]);
    reflexivity.
Defined.


(** ** The title pattern *)

Lemma firstSome_In {A B} (f : A -> option B) (l : list A) (a : A) :
  In a l -> f a <> None -> firstSome f l <> None.
Proof.
  induction l as [|x l IH]; [easy|]. intros [-> | Hin] Hf; simpl.
  - destruct (f a); congruence.
  - destruct (f x); [discriminate | auto].
Qed.

Lemma firstSome_Some_In {A B} (f : A -> option B) (l : list A) (b : B) :
  firstSome f l = Some b -> exists a, In a l /\ f a = Some b.
Proof.
  induction l as [|x l IH]; [discriminate|]. simpl.
  destruct (f x) as [y|] eqn:E.
  - intros [= <-]. eauto.
  - intros H. destruct (IH H) as (a & Hin & Ha). eauto.
Qed.

(** On an increasing range the first success is the least one. *)
Lemma firstSome_seq {B} (f : nat -> option B) (len a : nat) (b : B) :
  firstSome f (seq a len) = Some b <->
  exists n, a <= n < a + len /\ f n = Some b
            /\ forall k, a <= k < n -> f k = None.
Proof.
  revert a. induction len as [|len IH]; intros a; simpl.
  - split; [discriminate | intros (n & Hn & _); lia].
  - destruct (f a) as [y|] eqn:E.
    + split.
      * intros [= <-]. exists a. repeat split; try lia; auto; intros; lia.
      * intros (n & Hn & Hf & Hmin).
        destruct (decide (n = a)) as [-> | Hne]; [congruence|].
        rewrite Hmin in E by lia. discriminate.
    + rewrite IH. split.
      * intros (n & Hn & Hf & Hmin). exists n. repeat split; try lia; auto.
        intros k Hk. destruct (decide (k = a)) as [-> | ?]; [auto|].
        apply Hmin. lia.
      * intros (n & Hn & Hf & Hmin). exists n.
        assert (n <> a) by congruence.
        repeat split; try lia; auto. intros k Hk. apply Hmin. lia.
Qed.

Lemma runLength_le (p : N -> bool) (s : jsstring) (n : nat) :
  n <= runLength p s
  <-> n <= length s /\ Forall (fun c => p c = true) (take n s).
Proof.
  revert n. induction s as [|c s IH]; intros n.
  - simpl. split.
    + intros H. assert (n = 0) as -> by lia. auto.
    + intros [H _]. lia.
  - destruct n as [|n];
      [simpl; split; [intros _; split; [lia|constructor] | lia]|].
    simpl. destruct (p c) eqn:E.
    + rewrite <- Nat.succ_le_mono, IH, <- Nat.succ_le_mono.
      split; intros [H1 H2]; split; auto.
      now inversion H2.
    + split; [lia|]. intros [_ H]. inversion H. congruence.
Qed.

Lemma counts_In (r : Rep) (s : jsstring) (n : nat) :
  In n (counts r s)
  <-> rmin r <= n /\ n <= runLength (cls r) s
      /\ forall m, rmax r = Some m -> n <= m.
Proof.
  unfold counts.
  assert (H : In n (seq (rmin r)
                      (S match rmax r with
                         | Some m => Nat.min m (runLength (cls r) s)
                         | None => runLength (cls r) s
                         end - rmin r))
              <-> rmin r <= n /\ n <= runLength (cls r) s
                  /\ forall m, rmax r = Some m -> n <= m).
  { rewrite in_seq. destruct (rmax r) as [m|].
    - split.
      + intros H. repeat split; try lia. intros ? [= <-]. lia.
      + intros (H1 & H2 & H3). specialize (H3 m eq_refl). lia.
    - split.
      + intros H. repeat split; try lia. discriminate.
      + intros (H1 & H2 & _). lia. }
  destruct (greedy r); [rewrite <- in_rev|]; exact H.
Qed.

Lemma fits_counts (r : Rep) (seg rest : jsstring) :
  fits r seg <-> In (length seg) (counts r (seg ++ rest)).
Proof.
  unfold fits. rewrite counts_In, runLength_le.
  rewrite take_app_length, length_app. intuition lia.
Qed.

(** Every match splits the subject into one run per item. *)
Lemma matchSeq_sound (items : list Rep) (s : jsstring) (ns : list nat) :
  matchSeq items s = Some ns ->
  exists segs tl,
    s = concat segs ++ tl /\ Forall2 fits items segs
    /\ ns = map length segs.
Proof.
  revert s ns. induction items as [|r items IH]; intros s ns; simpl.
  - intros [= <-]. exists [], s. repeat split. constructor.
  - intros H. apply firstSome_Some_In in H as (n & Hin & Hn).
    destruct (matchSeq items (drop n s)) as [ms|] eqn:E; [|discriminate].
    injection Hn as <-.
    destruct (IH _ _ E) as (segs & tl & Hs & Hfit & ->).
    apply counts_In in Hin as (Hmin & Hrun & Hmax).
    apply runLength_le in Hrun as [Hlen Hall].
    exists (take n s :: segs), tl. repeat split.
    + cbn [concat]. rewrite <- app_assoc, <- Hs. now rewrite take_drop.
    + constructor; [|exact Hfit].
      unfold fits. rewrite length_take_le by exact Hlen. auto.
    + cbn [map]. now rewrite length_take_le by exact Hlen.
Qed.

(** Every such split is found, or another one before it. *)
Lemma matchSeq_complete (items : list Rep) (segs : list jsstring)
    (tl : jsstring) :
  Forall2 fits items segs -> matchSeq items (concat segs ++ tl) <> None.
Proof.
  induction 1 as [|r seg items segs Hfit _ IH]; [discriminate|].
  cbn [matchSeq concat]. rewrite <- app_assoc.
  apply firstSome_In with (a := length seg).
  - now apply fits_counts.
  - rewrite drop_app_length.
    destruct (matchSeq items (concat segs ++ tl)); congruence.
Qed.

Lemma fits_one (p : N -> bool) (seg : jsstring) :
  fits (one p) seg <-> exists c, seg = [c] /\ p c = true.
Proof.
  unfold fits, one. cbn [rmin rmax cls]. split.
  - intros (Hmin & Hmax & Hall). specialize (Hmax 1 eq_refl).
    destruct seg as [|c [|d seg]]; simpl in *; try lia.
    exists c. split; [reflexivity|]. now inversion Hall.
  - intros (c & -> & Hc). repeat split; simpl; try lia.
    + intros ? [= <-]. lia.
    + now repeat constructor.
Qed.

Lemma fits_star (p : N -> bool) (seg : jsstring) :
  fits (star p) seg <-> Forall (fun c => p c = true) seg.
Proof.
  unfold fits, star. cbn [rmin rmax cls]. split.
  - now intros (_ & _ & H).
  - intros H. repeat split; [lia | discriminate | exact H].
Qed.

Lemma fits_plus (p : N -> bool) (seg : jsstring) :
  fits (plus p) seg <-> Forall (fun c => p c = true) seg /\ seg <> [].
Proof.
  unfold fits, plus. cbn [rmin rmax cls]. split.
  - intros (Hmin & _ & H). split; [exact H|]. intros ->. simpl in Hmin. lia.
  - intros [H Hne]. repeat split; [|discriminate|exact H].
    destruct seg; [contradiction | simpl; lia].
Qed.

(** The items after the capture group match exactly a boundary. *)
Lemma Boundary_fits (rest : jsstring) :
  Boundary rest
  <-> exists segs tl,
        rest = concat segs ++ tl /\ Forall2 fits (tail titlePattern) segs.
Proof.
  unfold titlePattern. cbn [tail]. split.
  - intros (ws1 & ws2 & u1 & l1 & ws3 & u2 & l2 & tl & -> & H1 & H2 & Hu1
            & Hl1 & Hn1 & H3 & Hn3 & Hu2 & Hl2 & Hn2).
    exists [ws1; [44%N]; ws2; [u1]; l1; ws3; [u2]; l2], tl. split.
    + cbn [concat]. repeat (rewrite <- app_assoc; cbn [app]).
      now rewrite ?app_nil_r.
    + repeat first [ apply List.Forall2_nil | apply List.Forall2_cons ];
        rewrite ?fits_one, ?fits_star, ?fits_plus; eauto.
  - intros (segs & tl & -> & H).
    apply Forall2_cons_inv_l in H as (ws1 & segs1 & H1 & H & ->).
    apply Forall2_cons_inv_l in H as (c & segs2 & Hc & H & ->).
    apply Forall2_cons_inv_l in H as (ws2 & segs3 & H2 & H & ->).
    apply Forall2_cons_inv_l in H as (w1 & segs4 & Hu1 & H & ->).
    apply Forall2_cons_inv_l in H as (l1 & segs5 & Hl1 & H & ->).
    apply Forall2_cons_inv_l in H as (ws3 & segs6 & H3 & H & ->).
    apply Forall2_cons_inv_l in H as (w2 & segs7 & Hu2 & H & ->).
    apply Forall2_cons_inv_l in H as (l2 & segs8 & Hl2 & H & ->).
    apply Forall2_nil_inv_l in H as ->.
    apply fits_star in H1, H2.
    apply fits_one in Hc as (k & -> & Hk), Hu1 as (u1 & -> & Hu1),
      Hu2 as (u2 & -> & Hu2).
    apply fits_plus in Hl1 as [Hl1 Hn1], H3 as [H3 Hn3], Hl2 as [Hl2 Hn2].
    apply N.eqb_eq in Hk as ->.
    exists ws1, ws2, u1, l1, ws3, u2, l2, tl. split.
    + cbn [concat]. repeat (rewrite <- app_assoc; cbn [app]).
      now rewrite ?app_nil_r.
    + repeat split; assumption.
Qed.

Lemma Boundary_matchSeq (rest : jsstring) :
  Boundary rest <-> matchSeq (tail titlePattern) rest <> None.
Proof.
  rewrite Boundary_fits. split.
  - intros (segs & tl & -> & H). now apply matchSeq_complete.
  - destruct (matchSeq _ rest) as [ns|] eqn:E; [intros _ | congruence].
    apply matchSeq_sound in E as (segs & tl & Hs & H & _). eauto.
Qed.

(** The match, stated on the subject. *)
Lemma titleMatch_iff (s g : jsstring) :
  titleMatch s = Some g
  <-> (exists rest, s = g ++ rest /\ Boundary rest)
      /\ length g <= 150
      /\ Forall (fun c => isLineTerminator c = false) g
      /\ forall k, k < length g -> ~ Boundary (drop k s).
Proof.
  unfold titleMatch.
  change titlePattern with (lazyUpTo dot 150 :: tail titlePattern).
  cbn [matchSeq]. unfold counts. cbn [greedy lazyUpTo rmin rmax cls].
  rewrite Nat.sub_0_r.
  set (hi := Nat.min 150 (runLength dot s)).
  set (f := fun n => match matchSeq (tail titlePattern) (drop n s) with
                     | Some ns => Some (n :: ns)
                     | None => None
                     end).
  assert (Hf : forall n, f n = None <-> ~ Boundary (drop n s)).
  { intros n. rewrite Boundary_matchSeq. unfold f.
    destruct (matchSeq _ _); split; intros H; try reflexivity.
    - discriminate.
    - exfalso. apply H. discriminate.
    - intros H'. now apply H'. }
  assert (Hdot : forall n, n <= hi
            <-> n <= 150 /\ n <= length s
                /\ Forall (fun c => isLineTerminator c = false) (take n s)).
  { intros n. unfold hi. rewrite Nat.min_glb_iff, runLength_le.
    unfold dot.
    assert (Hneg : forall l : jsstring,
              Forall (fun c => negb (isLineTerminator c) = true) l
              <-> Forall (fun c => isLineTerminator c = false) l).
    { intros l. apply Forall_iff. intros c. apply negb_true_iff. }
    rewrite Hneg. tauto. }
  split.
  - destruct (firstSome f (seq 0 (S hi))) as [[|n ns]|] eqn:E;
      try discriminate.
    intros [= <-]. apply firstSome_seq in E as (m & Hm & Hfm & Hmin).
    assert (Hbm : Boundary (drop m s) /\ m = n).
    { unfold f in Hfm.
      destruct (matchSeq (tail titlePattern) (drop m s)) as [l|] eqn:El;
        [|discriminate].
      split; [apply Boundary_matchSeq|]; congruence. }
    destruct Hbm as [Hb ->].
    assert (Hn : n <= hi) by lia. apply Hdot in Hn as (H150 & Hlen & Hlt).
    rewrite length_take_le by exact Hlen. repeat split; auto.
    + exists (drop n s). split; [now rewrite take_drop | exact Hb].
    + intros k Hk. apply Hf, Hmin. lia.
  - intros ((rest & -> & Hb) & H150 & Hlt & Hmin).
    assert (Hhi : length g <= hi).
    { apply Hdot. rewrite take_app_length, length_app.
      repeat split; auto; lia. }
    destruct (f (length g)) as [ns|] eqn:Efg.
    + assert (E : firstSome f (seq 0 (S hi)) = Some ns).
      { apply firstSome_seq. exists (length g). repeat split; try lia; auto.
        intros k Hk. apply Hf, Hmin. lia. }
      rewrite E. unfold f in Efg.
      destruct (matchSeq _ _); [|discriminate]. injection Efg as <-.
      now rewrite take_app_length.
    + apply Hf in Efg. rewrite drop_app_length in Efg. contradiction.
Qed.

(** X9.  What the title pattern extracts.  The match returns [g] if and
    only if [g] is a prefix of the string of at most 150 code units
    without a line terminator, the text after [g] is a boundary
    (optional whitespace, a comma, optional whitespace, two capitalized
    words separated by whitespace), and no shorter prefix is followed
    by a boundary. *)
Theorem titleMatch_spec (s g : jsstring) :
  titleMatch s = Some g
  <-> (exists rest, s = g ++ rest /\ Boundary rest)
      /\ length g <= 150
      /\ Forall (fun c => isLineTerminator c = false) g
      /\ forall k, k < length g -> ~ Boundary (drop k s).
Proof. exact (titleMatch_iff s g). Qed.

(** ** The repair chain *)

Lemma trimStart_length (s : jsstring) : length (trimStart s) <= length s.
Proof.
  induction s as [|c s IH]; simpl; [lia|].
  destruct (isWhiteSpace c); simpl; lia.
Qed.

Lemma trim_length (s : jsstring) : length (trim s) <= length s.
Proof.
  unfold trim, trimEnd. rewrite length_rev.
  etransitivity; [apply trimStart_length|]. rewrite length_rev.
  apply trimStart_length.
Qed.

(** The Sheets title is the CSV title followed by the final check. *)
Lemma sheetsListingTitle_final (card : CardRecord) (d : jsstring) :
  autoDescription card = Some d -> d <> [] ->
  sheetsListingTitle card
  = let listingTitle := csvListingTitle card in
    if truthy listingTitle
       && (strictEq listingTitle d
           || ((200 <? length listingTitle)
               && includes listingTitle (substring0 d 50)))
    then orElse (title (normalized card)) (lit "Untitled Card")
    else listingTitle.
Proof.
  intros Hd Hne. unfold sheetsListingTitle, csvListingTitle. rewrite Hd.
  destruct d as [|c d]; [contradiction|].
  cbn [truthyOpt truthy orElseOpt orElse andb]. rewrite !andb_true_r.
  destruct (truthy _); reflexivity.
Qed.

(** X10.  A record in good shape passes the validation untouched: a
    generated title that is not blank, has at most 150 code units and
    differs from the description is the working title of both paths,
    and the swap repair does not apply.  (The row checks of the Sheets
    path come after it and still refuse a title that is longer than
    the description.) *)
Theorem listingTitle_healthy (card : CardRecord) (t : jsstring) :
  autoTitle card = Some t -> trim t <> [] -> length t <= 150 ->
  autoDescription card <> Some t ->
  swapDefect card = false
  /\ csvListingTitle card = t /\ sheetsListingTitle card = t.
Proof.
  intros Ht Htrim Hlen Hne.
  assert (Htt : truthy t = true)
    by (apply truthy_true; eauto using trim_nonempty).
  assert (Htr : strictEq (trim t) [] = false) by now apply strictEq_false.
  assert (H150 : (150 <? length t) = false) by (apply Nat.ltb_ge; lia).
  assert (H200 : (200 <? length t) = false) by (apply Nat.ltb_ge; lia).
  assert (Hcsv : csvListingTitle card = t).
  { unfold csvListingTitle. rewrite Ht, Htt, Htr. cbn [negb andb].
    destruct (autoDescription card) as [d|]; [|reflexivity].
    rewrite Htt, H150. cbn [andb].
    destruct (truthy d); [|reflexivity].
    replace (strictEq t d) with false; [reflexivity|].
    symmetry. apply strictEq_false. congruence. }
  split; [|split]; [|exact Hcsv|].
  - unfold swapDefect. rewrite Ht.
    destruct (autoDescription card); rewrite ?andb_false_r; try reflexivity.
    now rewrite H200, andb_false_r.
  - destruct (autoDescription card) as [[|c d]|] eqn:Hd.
    + unfold sheetsListingTitle. rewrite Ht, Hd, Htt, Htr.
      cbn [negb andb truthyOpt truthy]. now rewrite ?andb_false_r.
    + rewrite (sheetsListingTitle_final card (c :: d) Hd) by discriminate.
      cbv zeta. rewrite Hcsv, Htt, H200.
      replace (strictEq t (c :: d)) with false; [reflexivity|].
      symmetry. apply strictEq_false. congruence.
    + unfold sheetsListingTitle. rewrite Ht, Hd, Htt, Htr.
      cbn [negb andb truthyOpt truthy]. now rewrite ?andb_false_r.
Qed.

Lemma listingTitle_healthy_witness :
  swapDefect terseCard = false
  /\ csvListingTitle terseCard = lit "2020 Topps Chrome Mike Trout PSA 9"
  /\ sheetsListingTitle terseCard = lit "2020 Topps Chrome Mike Trout PSA 9".
Proof.
  apply (listingTitle_healthy terseCard
           (lit "2020 Topps Chrome Mike Trout PSA 9")); by_eval.
Defined.

(** The identity repair of both paths: the working title is either
    not the description, or the fallback. *)
Lemma orElse_equals (a fallback d : jsstring) :
  orElse a fallback = d -> a = d \/ (a = [] /\ d = fallback).
Proof. unfold orElse. destruct a; simpl; intros <-; auto. Qed.

(** X11.  When the working title still equals a non-empty description,
    the fallback of the identity repair is to blame: the normalized
    title is the description itself, or it is empty and the
    description is the literal fallback, "Untitled" on the CSV path
    and "Untitled Card" on the Sheets path. *)
Theorem listingTitle_equals_description (card : CardRecord) (d : jsstring) :
  autoDescription card = Some d -> d <> [] ->
  (csvListingTitle card = d ->
   title (normalized card) = d
   \/ (title (normalized card) = [] /\ d = lit "Untitled"))
  /\ (sheetsListingTitle card = d ->
      title (normalized card) = d
      \/ (title (normalized card) = [] /\ d = lit "Untitled Card")).
Proof.
  intros Hd Hne. split.
  - unfold csvListingTitle. rewrite Hd.
    apply truthy_true in Hne as Htd. rewrite Htd, andb_true_r.
    match goal with
    | |- (if truthy ?lt0 then _ else _) = _ -> _ =>
        destruct (truthy lt0) eqn:E0;
          [|apply truthy_false in E0; rewrite E0; congruence]
    end.
    match goal with
    | |- (if strictEq ?lt1 d then _ else _) = _ -> _ =>
        destruct (strictEq lt1 d) eqn:E1;
          [apply orElse_equals | apply strictEq_false in E1; congruence]
    end.
  - rewrite (sheetsListingTitle_final card d Hd Hne). cbv zeta.
    destruct (truthy (csvListingTitle card)) eqn:E0;
      [|apply truthy_false in E0; rewrite E0; cbn [andb]; congruence].
    cbn [andb].
    destruct (strictEq (csvListingTitle card) d) eqn:E1; cbn [orb].
    + apply orElse_equals.
    + destruct (_ && _); [apply orElse_equals|].
      apply strictEq_false in E1. congruence.
Qed.

Lemma listingTitle_equals_description_witness :
  csvListingTitle echoCard = lit "2020 Topps #42 Mike Trout PSA 9"
  /\ title (normalized echoCard) = lit "2020 Topps #42 Mike Trout PSA 9".
Proof.
  split; [by_eval|].
  destruct (proj1 (listingTitle_equals_description echoCard
                     (lit "2020 Topps #42 Mike Trout PSA 9")
                     ltac:(by_eval) ltac:(by_eval)))
    as [H | [H _]]; [by_eval | exact H | by_eval].
Defined.

(** X12.  On the Sheets path a working title of more than 200 code
    units that contains the first 50 code units of a non-empty
    description can only be the normalized title: every generated
    title of that kind has been replaced. *)
Theorem sheetsListingTitle_contains_description (card : CardRecord)
    (d : jsstring) :
  autoDescription card = Some d -> d <> [] ->
  200 < length (sheetsListingTitle card) ->
  includes (sheetsListingTitle card) (substring0 d 50) = true ->
  sheetsListingTitle card = title (normalized card).
Proof.
  intros Hd Hne. rewrite (sheetsListingTitle_final card d Hd Hne). cbv zeta.
  destruct (truthy (csvListingTitle card)
            && (strictEq (csvListingTitle card) d
                || ((200 <? length (csvListingTitle card))
                    && includes (csvListingTitle card) (substring0 d 50))))
    eqn:E.
  - unfold orElse. destruct (title (normalized card)) as [|c s];
      cbn [truthy]; [|reflexivity].
    intros Hlen. vm_compute in Hlen. lia.
  - intros Hlen Hinc. exfalso.
    apply Nat.ltb_lt in Hlen. rewrite Hlen, Hinc, orb_true_r in E.
    rewrite andb_true_r in E. apply truthy_false in E. rewrite E in Hlen.
    discriminate.
Qed.


(** X13.  Scenario E.  A generated title of more than 150 code units
    that contains the first 50 code units of the description is cut:
    to the trimmed capture of the title pattern when that is not empty,
    else to its first 100 code units, trimmed.  The cut has at most 150
    code units; it is the working title of both paths unless it equals
    the description, in which case the CSV path falls back to the
    normalized title or "Untitled". *)
Theorem embedded_description_cut (card : CardRecord) (t d : jsstring) :
  autoTitle card = Some t -> trim t <> [] ->
  autoDescription card = Some d -> d <> [] ->
  150 < length t -> includes t (substring0 d 50) = true ->
  let cut :=
    match titleMatch t with
    | Some (c :: g) => trim (c :: g)
    | _ => trim (substring0 t 100)
    end in
  length cut <= 150
  /\ (cut <> d -> csvListingTitle card = cut /\ sheetsListingTitle card = cut)
  /\ (cut = d ->
      csvListingTitle card = orElse (title (normalized card)) (lit "Untitled")).
Proof.
  intros Ht Htrim Hd Hne Hlen Hinc cut.
  assert (Htt : truthy t = true)
    by (apply truthy_true; eauto using trim_nonempty).
  assert (Htd : truthy d = true) by now apply truthy_true.
  assert (Htr : strictEq (trim t) [] = false) by now apply strictEq_false.
  assert (H150 : (150 <? length t) = true) by now apply Nat.ltb_lt.
  assert (Hcut : length cut <= 150).
  { unfold cut. destruct (titleMatch t) as [[|c g]|] eqn:E.
    - etransitivity; [apply trim_length|]. unfold substring0.
      rewrite length_take. lia.
    - apply titleMatch_iff in E as (_ & Hg & _).
      etransitivity; [apply trim_length | exact Hg].
    - etransitivity; [apply trim_length|]. unfold substring0.
      rewrite length_take. lia. }
  assert (Hcsv : csvListingTitle card
                 = if strictEq cut d
                   then orElse (title (normalized card)) (lit "Untitled")
                   else cut).
  { unfold csvListingTitle. rewrite Ht, Htt, Htr, Hd. cbn [negb andb].
    rewrite Htt, Htd, H150, Hinc. cbn [andb]. unfold cut.
    now destruct (titleMatch t) as [[|c g]|]. }
  split; [exact Hcut|]. split.
  - intros Hcd. apply strictEq_false in Hcd as Hcd'.
    rewrite Hcd' in Hcsv. split; [exact Hcsv|].
    rewrite (sheetsListingTitle_final card d Hd Hne). cbv zeta.
    rewrite Hcsv, Hcd'.
    replace (200 <? length cut) with false
      by (symmetry; apply Nat.ltb_ge; lia).
    cbn [orb andb]. now rewrite andb_false_r.
  - intros Hcd. apply strictEq_true in Hcd. now rewrite Hcd in Hcsv.
Qed.

Lemma embedded_description_cut_witness :
  csvListingTitle runOnCard = lit "2020 Topps Chrome Mike Trout PSA 9"
  /\ sheetsListingTitle runOnCard = lit "2020 Topps Chrome Mike Trout PSA 9".
Proof.
  destruct (embedded_description_cut runOnCard
              (lit "2020 Topps Chrome Mike Trout PSA 9 , " ++ longDescription)
              longDescription) as (_ & H & _); [by_eval .. |].
  destruct H as [H1 H2]; [by_eval|].
  split; [rewrite H1 | rewrite H2]; by_eval.
Defined.

(** ** Rows and columns of the two exports *)

(** X14.  The record of the CSV export has the columns of the
    11-column sheet header, in the same order, and its cells are those
    of the 11-column sheet row built from the same title. *)
Theorem csvData_matches_sheet_row (card : CardRecord)
    (listingTitle : jsstring) :
  map fst (csvData card listingTitle) = expectedHeaders
  /\ map snd (csvData card listingTitle) = rowData card listingTitle 10.
Proof.
  split; [reflexivity|].
  unfold csvData, rowData. cbn [Nat.eqb map snd].
  now rewrite !orElse_nil.
Qed.

(** ** Runs of the Sheets handler *)

Section MoreRuns.

Variables (svc : SheetsService) (card : CardRecord).
Variables (spreadsheetId sheetName : jsstring).

Lemma writeSheet_read (existingData : option (list (list jsstring)))
    (log : list SheetsCall) :
  readSheet svc spreadsheetId sheetName [] = (inr existingData, log) ->
  writeSheet svc card spreadsheetId sheetName []
  = writeRow svc card (sheetsListingTitle card) spreadsheetId sheetName
      existingData log.
Proof.
  intros H. unfold writeSheet. unfold mbind at 1. unfold M_bind at 1.
  now rewrite H.
Qed.

Lemma writeSheet_exit (e : Exit) (log : list SheetsCall) :
  readSheet svc spreadsheetId sheetName [] = (inl e, log) ->
  writeSheet svc card spreadsheetId sheetName [] = (inl e, log).
Proof.
  intros H. unfold writeSheet. unfold mbind at 1. unfold M_bind at 1.
  now rewrite H.
Qed.

(** The run of [writeRow] for a row that passed the checks. *)
Lemma writeRow_accepted (listingTitle : jsstring)
    (existingData : option (list (list jsstring))) (row : list jsstring)
    (log : list SheetsCall) :
  buildRow card listingTitle (snd (classify existingData)) = inr row ->
  let index := snd (classify existingData) in
  let H := headerUpdate spreadsheetId sheetName existingData in
  let U := rowUpdate spreadsheetId sheetName existingData row in
  let sendRow (log : list SheetsCall) :=
    match values_update svc log spreadsheetId
            (rowRange sheetName index (nextRowOf existingData)) [row] with
    | inl t => (inl (Throws t), log ++ [U])
    | inr _ =>
        (inr (successResponse spreadsheetId sheetName
                (nextRowOf existingData)), log ++ [U])
    end in
  writeRow svc card listingTitle spreadsheetId sheetName existingData log
  = if headerNeeded existingData then
      match values_update svc log spreadsheetId
              (headerRange sheetName index) [headersFor index] with
      | inl t => (inl (Throws t), log ++ [H])
      | inr _ => sendRow (log ++ [H])
      end
    else sendRow log.
Proof.
  intros Hrow index H U sendRow.
  unfold writeRow, mbind, M_bind, liftThrown, mret, M_ret. rewrite Hrow.
  unfold when, updateValues, request, headerNeeded, sendRow, H, U,
    headerUpdate, rowUpdate, headerRange, rowRange, headersFor.
  fold index.
  destruct ((nextRowOf existingData =? 1) || fst (classify existingData)).
  - destruct (index =? 11);
      destruct (values_update svc log _ _ _) as [t|[]]; try reflexivity;
      destruct (values_update svc (log ++ _) _ _ _) as [t|[]]; reflexivity.
  - unfold mret, M_ret.
    destruct (values_update svc log _ _ _) as [t|[]]; reflexivity.
Qed.

End MoreRuns.

Section ReadRuns.

Variables (svc : SheetsService) (spreadsheetId sheetName : jsstring).

(** The run of [readSheet], reply by reply. *)
Lemma readSheet_cases :
  readSheet svc spreadsheetId sheetName []
  = match spreadsheets_get svc [] spreadsheetId with
    | inl _ =>
        (inl (Returns (notFoundResponse spreadsheetId)),
         [SpreadsheetsGet spreadsheetId])
    | inr _ =>
        match
          spreadsheets_get svc [SpreadsheetsGet spreadsheetId] spreadsheetId
        with
        | inl t => (inl (Throws t), lookups spreadsheetId)
        | inr sheets =>
            if sheetExists sheets sheetName then
              (match
                 values_get svc (lookups spreadsheetId) spreadsheetId
                   (sheetName ++ lit "!A:Z")
               with
               | inl t => inl (Throws t)
               | inr values => inr values
               end, readCalls spreadsheetId sheetName true)
            else
              match
                spreadsheets_batchUpdate svc (lookups spreadsheetId)
                  spreadsheetId sheetName
              with
              | inl t =>
                  (inl (Throws t),
                   lookups spreadsheetId
                   ++ [SpreadsheetsBatchUpdateAddSheet spreadsheetId sheetName])
              | inr _ =>
                  (match
                     values_get svc
                       (lookups spreadsheetId
                        ++ [SpreadsheetsBatchUpdateAddSheet spreadsheetId
                              sheetName])
                       spreadsheetId (sheetName ++ lit "!A:Z")
                   with
                   | inl t => inl (Throws t)
                   | inr values => inr values
                   end, readCalls spreadsheetId sheetName false)
              end
        end
    end.
Proof.
  unfold readSheet, getSpreadsheet, addSheet, getValues, tryCatch, when,
    returns, request, mbind, M_bind, mret, M_ret, readCalls, lookups.
  cbn [app].
  destruct (spreadsheets_get svc [] spreadsheetId) as [t1|s1];
    [reflexivity|].
  destruct (spreadsheets_get svc [_] spreadsheetId) as [t2|sheets];
    [reflexivity|]. cbn [app].
  destruct (sheetExists sheets sheetName); cbn [negb app].
  - destruct (values_get svc _ _ _); reflexivity.
  - destruct (spreadsheets_batchUpdate svc _ _ _) as [t3|[]];
      [reflexivity|]. cbn [app].
    destruct (values_get svc _ _ _); reflexivity.
Qed.

End ReadRuns.

(** ** The two handlers and the card store *)

(** X15.  The swap repair is written to the card store before anything
    else can fail: for a stored card both handlers leave the store as
    the repair leaves it, whatever the configuration, the service and
    the response. *)
Theorem repair_persists (p : Platform) (client : GoogleAuth -> SheetsService)
    (config : Config.t) (store : CardStore) (req : Request.body)
    (cardId : jsstring) (card : CardRecord) :
  Request.cardId req = Some cardId -> cardId <> [] ->
  store !! cardId = Some card ->
  snd (exportCsv store req) = fst (swapRepair store cardId card)
  /\ cards (exportSheets p client config store req)
     = fst (swapRepair store cardId card).
Proof.
  intros Hreq Hid Hstore. rewrite exportCsv_cards, exportSheets_cards.
  unfold storeAfter. rewrite Hreq. destruct cardId as [|c s]; [easy|].
  now rewrite Hstore.
Qed.

Lemma repair_persists_witness :
  let out :=
    exportSheets samplePlatform (fun _ => emptySheet)
      (loadConfig samplePlatform bareEnv)
      {[ lit "c3" := transposedCard ]} (requestFor (lit "c3")) in
  status (response out) = 400
  /\ cards out = {[ lit "c3" := swapFields transposedCard ]}.
Proof.
  cbv zeta. split; [by_eval|].
  rewrite (proj2 (repair_persists samplePlatform (fun _ => emptySheet)
                    (loadConfig samplePlatform bareEnv)
                    {[ lit "c3" := transposedCard ]} (requestFor (lit "c3"))
                    (lit "c3") transposedCard eq_refl ltac:(by_eval)
                    ltac:(by_eval))).
  rewrite swapRepair_defect by by_eval. cbn [fst].
  apply insert_singleton_eq.
Defined.

(** X16.  A request that names no stored card (no id, an empty id or
    an unknown id) gets the same answer from both handlers, 400 for a
    missing id and 404 for an unknown one; the store is left as it was
    and nothing is sent to the spreadsheet service. *)
Theorem export_without_card (p : Platform)
    (client : GoogleAuth -> SheetsService) (config : Config.t)
    (store : CardStore) (req : Request.body) :
  (forall cardId, Request.cardId req = Some cardId -> cardId <> [] ->
                  store !! cardId = None) ->
  let out := exportSheets p client config store req in
  response out = fst (exportCsv store req)
  /\ response out
     = (if truthyOpt (Request.cardId req)
        then jsonError 404 (lit "Card not found")
        else jsonError 400 (lit "Card ID is required"))
  /\ cards out = store /\ snd (exportCsv store req) = store
  /\ calls out = [].
Proof.
  intros Hnone out. subst out. unfold exportSheets, exportCsv.
  destruct (Request.cardId req) as [[|c s]|] eqn:E;
    cbn [truthyOpt truthy negb orElseOpt orElse]; auto.
  rewrite (Hnone (c :: s) eq_refl) by discriminate. auto.
Qed.

Lemma export_without_card_witness :
  response (exportSheets samplePlatform (fun _ => emptySheet)
              (loadConfig samplePlatform developmentEnv)
              {[ lit "c1" := terseCard ]} (requestFor (lit "zz")))
  = jsonError 404 (lit "Card not found").
Proof.
  apply (export_without_card samplePlatform (fun _ => emptySheet)
           (loadConfig samplePlatform developmentEnv)
           {[ lit "c1" := terseCard ]} (requestFor (lit "zz"))).
  intros cardId [= <-] _. by_eval.
Defined.

(** ** The spreadsheet id *)

(** X17.  A configured spreadsheet id wins: when the configuration has
    one, the [spreadsheetId] of the request body has no effect on the
    outcome of the call. *)
Theorem body_spreadsheetId_ignored (p : Platform)
    (client : GoogleAuth -> SheetsService) (config : Config.t)
    (store : CardStore) (req : Request.body) (other : option jsstring) :
  Config.spreadsheetId (Config.sheets config) <> [] ->
  exportSheets p client config store (withSpreadsheetId other req)
  = exportSheets p client config store req.
Proof.
  intros H. apply truthy_true in H.
  unfold exportSheets, resolveSpreadsheetId, resolveSheetName.
  now rewrite H.
Qed.

Lemma body_spreadsheetId_ignored_witness :
  exportSheets samplePlatform (fun _ => emptySheet)
    (loadConfig samplePlatform developmentEnv) {[ lit "a" := describedCard ]}
    (withSpreadsheetId (Some (lit "sheet-2")) (requestFor (lit "a")))
  = exportSheets samplePlatform (fun _ => emptySheet)
      (loadConfig samplePlatform developmentEnv)
      {[ lit "a" := describedCard ]} (requestFor (lit "a")).
Proof.
  apply (body_spreadsheetId_ignored samplePlatform (fun _ => emptySheet)
           (loadConfig samplePlatform developmentEnv)).
  by_eval.
Defined.

(** X18.  Scenario D.  For a stored card, when neither the
    configuration nor the request body gives a non-empty spreadsheet
    id, the answer is 400 with the message that names
    GOOGLE_SHEETS_SPREADSHEET_ID, whether or not credentials exist,
    and nothing is sent to the spreadsheet service. *)
Theorem spreadsheetId_required (p : Platform)
    (client : GoogleAuth -> SheetsService) (config : Config.t)
    (store : CardStore) (req : Request.body) (cardId : jsstring)
    (card : CardRecord) :
  Request.cardId req = Some cardId -> cardId <> [] ->
  store !! cardId = Some card ->
  Config.spreadsheetId (Config.sheets config) = [] ->
  truthyOpt (Request.spreadsheetId req) = false ->
  let out := exportSheets p client config store req in
  response out
  = jsonError 400
      (lit "Google Sheets Spreadsheet ID is required. Set GOOGLE_SHEETS_SPREADSHEET_ID in .env or provide spreadsheetId in request.")
  /\ calls out = [].
Proof.
  intros Hreq Hid Hstore Hcfg Hbody out. subst out.
  unfold exportSheets, resolveSpreadsheetId. rewrite Hreq, Hcfg.
  destruct cardId as [|c s]; [easy|].
  cbn [truthyOpt truthy negb orElseOpt orElse]. rewrite Hstore.
  destruct (swapRepair store (c :: s) card) as [store1 card1].
  destruct (Request.spreadsheetId req) as [[|? ?]|]; try discriminate; auto.
Qed.

Lemma spreadsheetId_required_witness :
  status (response
            (exportSheets samplePlatform (fun _ => emptySheet)
               (loadConfig samplePlatform bareEnv)
               {[ lit "c1" := terseCard ]} (requestFor (lit "c1"))))
  = 400.
Proof.
  rewrite (proj1 (spreadsheetId_required samplePlatform (fun _ => emptySheet)
                    (loadConfig samplePlatform bareEnv)
                    {[ lit "c1" := terseCard ]} (requestFor (lit "c1"))
                    (lit "c1") terseCard eq_refl ltac:(by_eval)
                    ltac:(by_eval) eq_refl eq_refl)).
  reflexivity.
Defined.

(** ** Requests sent to the spreadsheet service *)

Section Ready.

Variables (p : Platform) (client : GoogleAuth -> SheetsService).
Variables (config : Config.t) (store : CardStore) (req : Request.body).
Variables (cardId spreadsheetId : jsstring) (card0 : CardRecord).
Variable auth : GoogleAuth.

Hypothesis Hready :
  ready p config store req cardId spreadsheetId card0 auth.

(** The outcome of a call that reaches the service. *)
Lemma exportSheets_ready :
  let run :=
    writeSheet (client auth) (snd (swapRepair store cardId card0))
      spreadsheetId (resolveSheetName config req) [] in
  response (exportSheets p client config store req)
  = match fst run with
    | inr r | inl (Returns r) => r
    | inl (Throws error) => failureResponse config error
    end
  /\ calls (exportSheets p client config store req) = snd run.
Proof using Hready.
  destruct Hready as (H1 & H2 & H3 & H4 & H5 & H6).
  now apply exportSheets_writeSheet.
Qed.

(** X19.  Only a failure of the first lookup of the spreadsheet is
    answered with 404 "Spreadsheet not found", after that one request.
    When the first lookup succeeds and the second fails, the answer is
    the 500 of the handler, after two requests. *)
Theorem spreadsheet_lookup_failure :
  let out := exportSheets p client config store req in
  (forall t, spreadsheets_get (client auth) [] spreadsheetId = inl t ->
     response out = notFoundResponse spreadsheetId
     /\ calls out = [SpreadsheetsGet spreadsheetId])
  /\
  (forall sheets t,
     spreadsheets_get (client auth) [] spreadsheetId = inr sheets ->
     spreadsheets_get (client auth) [SpreadsheetsGet spreadsheetId]
       spreadsheetId = inl t ->
     response out = failureResponse config t
     /\ calls out = lookups spreadsheetId).
Proof using Hready.
  intros out. destruct exportSheets_ready as [Hresp Hcalls].
  fold out in Hresp, Hcalls. split.
  - intros t Ht.
    rewrite (writeSheet_exit _ _ _ _ (Returns (notFoundResponse spreadsheetId))
               [SpreadsheetsGet spreadsheetId]) in Hresp, Hcalls;
      [auto | rewrite readSheet_cases; now rewrite Ht
            | rewrite readSheet_cases; now rewrite Ht].
  - intros sheets t Hs Ht.
    rewrite (writeSheet_exit _ _ _ _ (Throws t) (lookups spreadsheetId))
      in Hresp, Hcalls;
      [auto | rewrite readSheet_cases; now rewrite Hs, Ht
            | rewrite readSheet_cases; now rewrite Hs, Ht].
Qed.

(** X20.  The tab is created exactly when the second lookup does not
    list it: the third request of the call is then the add-sheet
    request, otherwise it is the read of the tab, and no other request
    of the call adds a sheet. *)
Theorem tab_created_when_missing
    (first sheets : option (list (option jsstring))) :
  spreadsheets_get (client auth) [] spreadsheetId = inr first ->
  spreadsheets_get (client auth) [SpreadsheetsGet spreadsheetId]
    spreadsheetId = inr sheets ->
  let out := exportSheets p client config store req in
  let sheetName := resolveSheetName config req in
  take 3 (calls out)
  = lookups spreadsheetId
    ++ [if sheetExists sheets sheetName
        then ValuesGet spreadsheetId (sheetName ++ lit "!A:Z")
        else SpreadsheetsBatchUpdateAddSheet spreadsheetId sheetName]
  /\ (In (SpreadsheetsBatchUpdateAddSheet spreadsheetId sheetName) (calls out)
      <-> sheetExists sheets sheetName = false)
  /\ forall c, In c (drop 3 (calls out)) ->
       match c with
       | SpreadsheetsBatchUpdateAddSheet _ _ => False
       | _ => True
       end.
Proof using Hready.
  intros Hfirst Hsheets out sheetName.
  destruct exportSheets_ready as [_ Hcalls]. fold out sheetName in Hcalls.
  set (card := snd (swapRepair store cardId card0)) in Hcalls.
  assert (Hsplit : exists res log extra,
            readSheet (client auth) spreadsheetId sheetName [] = (res, log)
            /\ calls out = log ++ extra
            /\ Forall (fun c => isValuesUpdate c = true) extra).
  { destruct (readSheet (client auth) spreadsheetId sheetName [])
      as [[e|data] log] eqn:E.
    - exists (inl e), log, [].
      rewrite (writeSheet_exit _ _ _ _ _ _ E) in Hcalls.
      rewrite app_nil_r. auto.
    - rewrite (writeSheet_read _ _ _ _ _ _ E) in Hcalls.
      destruct (buildRow card (sheetsListingTitle card) (snd (classify data)))
        as [e|row] eqn:Eb.
      + rewrite (writeRow_rejected _ _ _ _ _ _ _ _ Eb) in Hcalls.
        exists (inr data), log, []. rewrite app_nil_r. auto.
      + rewrite (writeRow_accepted _ _ _ _ _ _ _ _ Eb) in Hcalls.
        cbv zeta in Hcalls. exists (inr data), log.
        destruct (headerNeeded data);
          repeat (match type of Hcalls with
                  | context [values_update ?a ?b ?c ?d ?e] =>
                      destruct (values_update a b c d e) as [?|[]]
                  end);
          cbn [snd] in Hcalls; rewrite <- ?app_assoc in Hcalls;
          eexists; (split; [reflexivity|]); (split; [exact Hcalls|]);
          repeat constructor. }
  destruct Hsplit as (res & log & extra & Hread & Hout & Hextra).
  rewrite readSheet_cases, Hfirst, Hsheets in Hread.
  unfold readCalls, lookups in *.
  assert (Hnot : forall c, In c extra ->
            c <> SpreadsheetsBatchUpdateAddSheet spreadsheetId sheetName
            /\ match c with
               | SpreadsheetsBatchUpdateAddSheet _ _ => False
               | _ => True
               end).
  { intros c Hc. rewrite Forall_forall in Hextra.
    apply list_elem_of_In, Hextra in Hc. destruct c; try discriminate. auto. }
  rewrite Hout.
  destruct (sheetExists sheets sheetName).
  - injection Hread as _ <-. cbn [app firstn skipn In]. repeat split.
    + intros [H|[H|[H|H]]]; try discriminate. now apply Hnot in H.
    + discriminate.
    + intros c Hc. now apply Hnot in Hc.
  - destruct (spreadsheets_batchUpdate _ _ _ _) as [t|[]];
      injection Hread as _ <-; cbn [app firstn skipn In]; repeat split;
      auto.
    + intros c Hc. now apply Hnot in Hc.
    + intros c [<- | Hc]; [exact I | now apply Hnot in Hc].
Qed.

(** X22.  A 200 answer means the whole sequence was carried out: the
    tab was read, the row passed its checks, the header was written
    first exactly when the tab had no row or the classifier asked for
    it, the data row was written last, to the row after the existing
    ones, and that row number is the one reported. *)
Theorem export_success :
  let out := exportSheets p client config store req in
  let card := snd (swapRepair store cardId card0) in
  let sheetName := resolveSheetName config req in
  status (response out) = 200 ->
  exists existingData log row,
    readSheet (client auth) spreadsheetId sheetName []
    = (inr existingData, log)
    /\ buildRow card (sheetsListingTitle card) (snd (classify existingData))
       = inr row
    /\ calls out = log ++ updates spreadsheetId sheetName existingData row
    /\ response out
       = successResponse spreadsheetId sheetName (nextRowOf existingData).
Proof using Hready.
  intros out card sheetName H200.
  destruct exportSheets_ready as [Hresp Hcalls].
  fold out card sheetName in Hresp, Hcalls.
  destruct (readSheet (client auth) spreadsheetId sheetName [])
    as [[e|data] log] eqn:E.
  - exfalso. rewrite (writeSheet_exit _ _ _ _ _ _ E) in Hresp.
    cbn [fst] in Hresp. destruct e as [t|r].
    + rewrite Hresp in H200. discriminate.
    + destruct (readSheet_run _ _ _ _ _ E) as [_ Hr].
      rewrite Hresp, (Hr r eq_refl) in H200. discriminate.
  - rewrite (writeSheet_read _ _ _ _ _ _ E) in Hresp, Hcalls.
    destruct (buildRow card (sheetsListingTitle card) (snd (classify data)))
      as [e|row] eqn:Eb.
    + exfalso. rewrite (writeRow_rejected _ _ _ _ _ _ _ _ Eb) in Hresp.
      cbn [fst] in Hresp. rewrite Hresp in H200. discriminate.
    + exists data, log, row. split; [reflexivity|]. split; [exact Eb|].
      rewrite (writeRow_accepted _ _ _ _ _ _ _ _ Eb) in Hresp, Hcalls.
      cbv zeta in Hresp, Hcalls. unfold updates.
      destruct (headerNeeded data);
        repeat (match type of Hresp with
                | context [values_update ?a ?b ?c ?d ?e] =>
                    destruct (values_update a b c d e) as [?|[]]
                end);
        cbn [fst snd] in Hresp, Hcalls;
        try (rewrite Hresp in H200; discriminate);
        rewrite <- ?app_assoc in Hcalls; auto.
Qed.

End Ready.

Section Targets.

Variables (svc : SheetsService) (card : CardRecord).
Variables (spreadsheetId sheetName : jsstring).

Lemma headerUpdate_good (existingData : option (list (list jsstring))) :
  addressedTo spreadsheetId sheetName
    (headerUpdate spreadsheetId sheetName existingData).
Proof.
  split; [reflexivity|]. unfold headerUpdate, headerRange. cbn [onTab].
  destruct (_ =? 11); eexists; reflexivity.
Qed.

Lemma rowUpdate_good (existingData : option (list (list jsstring)))
    (row : list jsstring) :
  addressedTo spreadsheetId sheetName
    (rowUpdate spreadsheetId sheetName existingData row).
Proof.
  split; [reflexivity|]. unfold rowUpdate, rowRange. cbn [onTab].
  eexists. reflexivity.
Qed.

Lemma readSheet_good (res : Exit + option (list (list jsstring)))
    (log : list SheetsCall) :
  readSheet svc spreadsheetId sheetName [] = (res, log) ->
  Forall (addressedTo spreadsheetId sheetName) log.
Proof.
  assert (Hv : addressedTo spreadsheetId sheetName
                 (ValuesGet spreadsheetId (sheetName ++ lit "!A:Z"))).
  { split; [reflexivity|]. exists (lit "A:Z"). reflexivity. }
  rewrite readSheet_cases. unfold readCalls, lookups.
  repeat case_match; intros [= <- <-]; cbn [app];
    repeat (apply Forall_cons; split); try apply Forall_nil;
    first [exact Hv | split; cbn; auto].
Qed.

Lemma writeRow_good (listingTitle : jsstring)
    (existingData : option (list (list jsstring)))
    (log0 log : list SheetsCall) (res : Exit + Response) :
  writeRow svc card listingTitle spreadsheetId sheetName existingData log0
  = (res, log) ->
  Forall (addressedTo spreadsheetId sheetName) log0 ->
  Forall (addressedTo spreadsheetId sheetName) log.
Proof.
  intros Hrun Hlog0.
  destruct (buildRow card listingTitle (snd (classify existingData)))
    as [e|row] eqn:Eb.
  - rewrite (writeRow_rejected _ _ _ _ _ _ _ _ Eb) in Hrun.
    now injection Hrun as _ <-.
  - rewrite (writeRow_accepted _ _ _ _ _ _ _ _ Eb) in Hrun.
    cbv zeta in Hrun.
    pose proof (headerUpdate_good existingData) as Hh.
    pose proof (rowUpdate_good existingData row) as Hr.
    repeat case_match; injection Hrun as _ <-;
      rewrite ?Forall_app, ?Forall_singleton; auto.
Qed.

Lemma writeSheet_good (res : Exit + Response) (log : list SheetsCall) :
  writeSheet svc card spreadsheetId sheetName [] = (res, log) ->
  Forall (addressedTo spreadsheetId sheetName) log.
Proof.
  destruct (readSheet svc spreadsheetId sheetName []) as [[e|data] log1] eqn:E.
  - rewrite (writeSheet_exit _ _ _ _ _ _ E). intros [= _ <-].
    eapply readSheet_good, E.
  - rewrite (writeSheet_read _ _ _ _ _ _ E). intros H.
    eapply writeRow_good; [exact H|]. eapply readSheet_good, E.
Qed.

End Targets.

(** X21.  Every request of a call is addressed to the spreadsheet that
    was resolved for it, and every tab it names (in the add-sheet
    request and in each range) is the resolved tab name. *)
Theorem requests_on_configured_sheet (p : Platform)
    (client : GoogleAuth -> SheetsService) (config : Config.t)
    (store : CardStore) (req : Request.body) :
  Forall (fun c =>
            resolveSpreadsheetId config req = Some (callSpreadsheet c)
            /\ onTab (resolveSheetName config req) c)
    (calls (exportSheets p client config store req)).
Proof.
  unfold exportSheets.
  destruct (negb (truthyOpt (Request.cardId req))); [constructor|].
  destruct (store !! _) as [card0|]; [|constructor].
  destruct (swapRepair store _ card0) as [store1 card1].
  destruct (resolveSpreadsheetId config req) as [[|c s]|]; try constructor.
  destruct (googleAuth p config) as [r|auth]; [constructor|].
  destruct (writeSheet _ _ _ _ _) as [res log] eqn:Hrun.
  apply writeSheet_good in Hrun.
  assert (Hlog : Forall (fun c0 => Some (c :: s) = Some (callSpreadsheet c0)
                           /\ onTab (resolveSheetName config req) c0) log).
  { eapply Forall_impl; [exact Hrun|]. intros c0 [-> Ht]. auto. }
  now destruct res as [[t|r]|r].
Qed.

Section ReadyWrites.

Variables (p : Platform) (client : GoogleAuth -> SheetsService).
Variables (config : Config.t) (store : CardStore) (req : Request.body).
Variables (cardId spreadsheetId : jsstring) (card0 : CardRecord).
Variable auth : GoogleAuth.

Hypothesis Hready :
  ready p config store req cardId spreadsheetId card0 auth.

(** The outcome of a call whose row passed the checks. *)
Lemma exportSheets_accepted (existingData : option (list (list jsstring)))
    (log : list SheetsCall) (row : list jsstring) :
  let card := snd (swapRepair store cardId card0) in
  let sheetName := resolveSheetName config req in
  readSheet (client auth) spreadsheetId sheetName []
  = (inr existingData, log) ->
  buildRow card (sheetsListingTitle card) (snd (classify existingData))
  = inr row ->
  let run :=
    writeRow (client auth) card (sheetsListingTitle card) spreadsheetId
      sheetName existingData log in
  response (exportSheets p client config store req)
  = match fst run with
    | inr r | inl (Returns r) => r
    | inl (Throws error) => failureResponse config error
    end
  /\ calls (exportSheets p client config store req) = snd run.
Proof using Hready.
  intros card sheetName Hread Hrow run.
  destruct (exportSheets_ready p client config store req cardId spreadsheetId
              card0 auth Hready) as [Hresp Hcalls].
  fold card sheetName in Hresp, Hcalls.
  now rewrite (writeSheet_read _ _ _ _ _ _ Hread) in Hresp, Hcalls.
Qed.

(** X23.  On a tab without rows a successful call writes the header
    and then the data row to one and the same range, row 1 of columns
    A to K, and reports row 1. *)
Theorem first_export_ranges (existingData : option (list (list jsstring)))
    (log : list SheetsCall) :
  let out := exportSheets p client config store req in
  let sheetName := resolveSheetName config req in
  readSheet (client auth) spreadsheetId sheetName []
  = (inr existingData, log) ->
  existingData = None \/ existingData = Some [] ->
  status (response out) = 200 ->
  exists row,
    calls out
    = log ++ [ ValuesUpdate spreadsheetId (sheetName ++ lit "!A1:K1")
                 [expectedHeaders];
               ValuesUpdate spreadsheetId (sheetName ++ lit "!A1:K1") [row] ]
    /\ length row = 11
    /\ response out = successResponse spreadsheetId sheetName 1.
Proof using Hready.
  intros out sheetName Hread Hempty H200.
  set (card := snd (swapRepair store cardId card0)).
  destruct (buildRow card (sheetsListingTitle card)
              (snd (classify existingData))) as [e|row] eqn:Eb.
  - exfalso.
    destruct (exportSheets_ready p client config store req cardId
                spreadsheetId card0 auth Hready) as [Hresp _].
    fold out card sheetName in Hresp.
    rewrite (writeSheet_read _ _ _ _ _ _ Hread),
      (writeRow_rejected _ _ _ _ _ _ _ _ Eb) in Hresp.
    cbn [fst] in Hresp. rewrite Hresp in H200. discriminate.
  - destruct (exportSheets_accepted existingData log row Hread Eb)
      as [Hresp Hcalls].
    fold out card sheetName in Hresp, Hcalls.
    rewrite (writeRow_accepted _ _ _ _ _ _ _ _ Eb) in Hresp, Hcalls.
    cbv zeta in Hresp, Hcalls.
    apply buildRow_inr in Eb as [Hrow _].
    assert (Hlen : length row = 11).
    { rewrite Hrow, rowData_length. now destruct Hempty as [-> | ->]. }
    exists row.
    destruct Hempty as [-> | ->];
      change (headerNeeded _) with true in Hresp, Hcalls;
      cbv iota in Hresp, Hcalls;
      repeat (match type of Hresp with
              | context [values_update ?a ?b ?c ?d ?e] =>
                  destruct (values_update a b c d e) as [?|[]]
              end);
      cbn [fst snd] in Hresp, Hcalls;
      try (rewrite Hresp in H200; discriminate);
      rewrite <- app_assoc in Hcalls; auto.
Qed.

(** X24.  The updates are not undone and not retried.  When the header
    update fails, the call ends with the 500 answer and the data row is
    never sent; when the header update succeeds and the row update
    fails, the call ends with the 500 answer and the header stays
    written. *)
Theorem update_failure (existingData : option (list (list jsstring)))
    (log : list SheetsCall) (row : list jsstring) :
  let out := exportSheets p client config store req in
  let card := snd (swapRepair store cardId card0) in
  let sheetName := resolveSheetName config req in
  let index := snd (classify existingData) in
  let H := headerUpdate spreadsheetId sheetName existingData in
  let U := rowUpdate spreadsheetId sheetName existingData row in
  readSheet (client auth) spreadsheetId sheetName []
  = (inr existingData, log) ->
  buildRow card (sheetsListingTitle card) index = inr row ->
  headerNeeded existingData = true ->
  (forall t,
     values_update (client auth) log spreadsheetId
       (headerRange sheetName index) [headersFor index] = inl t ->
     response out = failureResponse config t /\ calls out = log ++ [H])
  /\
  (forall t,
     values_update (client auth) log spreadsheetId
       (headerRange sheetName index) [headersFor index] = inr tt ->
     values_update (client auth) (log ++ [H]) spreadsheetId
       (rowRange sheetName index (nextRowOf existingData)) [row] = inl t ->
     response out = failureResponse config t /\ calls out = log ++ [H; U]).
Proof using Hready.
  intros out card sheetName index H U Hread Hrow Hneeded.
  destruct (exportSheets_accepted existingData log row Hread Hrow)
    as [Hresp Hcalls].
  fold out card sheetName in Hresp, Hcalls.
  rewrite (writeRow_accepted _ _ _ _ _ _ _ _ Hrow), Hneeded in Hresp, Hcalls.
  cbv zeta in Hresp, Hcalls. fold index H U in Hresp, Hcalls.
  split.
  - intros t Ht. rewrite Ht in Hresp, Hcalls. auto.
  - intros t Hh Hu. rewrite Hh, Hu in Hresp, Hcalls.
    cbn [fst snd] in Hresp, Hcalls. rewrite <- app_assoc in Hcalls. auto.
Qed.

(** X25.  With a service that answers every request, the tab is read
    and the only failure left is a row that does not pass its checks:
    the answer is 200 with the next row number, or the 500 answer that
    carries the error of the failed check. *)
Theorem reliable_service_export :
  Reliable (client auth) ->
  let out := exportSheets p client config store req in
  let card := snd (swapRepair store cardId card0) in
  let sheetName := resolveSheetName config req in
  exists existingData log,
    readSheet (client auth) spreadsheetId sheetName []
    = (inr existingData, log)
    /\ response out
       = match buildRow card (sheetsListingTitle card)
                 (snd (classify existingData)) with
         | inr _ =>
             successResponse spreadsheetId sheetName (nextRowOf existingData)
         | inl e => failureResponse config e
         end.
Proof using Hready.
  intros (Hget & Hadd & Hvalues & Hupdate) out card sheetName.
  assert (Hread : exists existingData log,
            readSheet (client auth) spreadsheetId sheetName []
            = (inr existingData, log)).
  { rewrite readSheet_cases.
    destruct (Hget [] spreadsheetId) as [s1 ->].
    destruct (Hget [SpreadsheetsGet spreadsheetId] spreadsheetId)
      as [sheets ->].
    destruct (sheetExists sheets sheetName).
    - destruct (Hvalues (lookups spreadsheetId) spreadsheetId
                  (sheetName ++ lit "!A:Z")) as [v ->]. eauto.
    - rewrite Hadd.
      destruct (Hvalues (lookups spreadsheetId
                         ++ [SpreadsheetsBatchUpdateAddSheet spreadsheetId
                               sheetName])
                  spreadsheetId (sheetName ++ lit "!A:Z")) as [v ->]. eauto. }
  destruct Hread as (data & log & Hread). exists data, log.
  split; [exact Hread|].
  destruct (buildRow card (sheetsListingTitle card) (snd (classify data)))
    as [e|row] eqn:Eb.
  - destruct (exportSheets_ready p client config store req cardId
                spreadsheetId card0 auth Hready) as [Hresp _].
    fold out card sheetName in Hresp.
    now rewrite (writeSheet_read _ _ _ _ _ _ Hread),
      (writeRow_rejected _ _ _ _ _ _ _ _ Eb) in Hresp.
  - destruct (exportSheets_accepted data log row Hread Eb) as [Hresp _].
    fold out card sheetName in Hresp.
    rewrite (writeRow_accepted _ _ _ _ _ _ _ _ Eb) in Hresp.
    cbv zeta in Hresp. rewrite !Hupdate in Hresp.
    now destruct (headerNeeded data).
Qed.

End ReadyWrites.


(** ** The properties above on the sample deployment *)

Lemma sheetsListingTitle_contains_description_witness :
  sheetsListingTitle verboseTitleCard = repeat 120%N 210 ++ lit "Mint.".
Proof.
  apply (sheetsListingTitle_contains_description verboseTitleCard
           (lit "Mint.")); by_eval.
Defined.

(** The sample deployment reaches the service for every stored card. *)
Lemma sample_ready (cardId : jsstring) (card : CardRecord) :
  cardId <> [] ->
  ready samplePlatform sampleConfig {[ cardId := card ]} (requestFor cardId)
    cardId (lit "sheet-1") card (AuthCredentials (lit "{}")).
Proof.
  intros Hid. unfold ready. rewrite lookup_singleton_eq.
  repeat split; try assumption; by_eval.
Defined.

Lemma spreadsheet_lookup_failure_witness :
  let out :=
    exportSheets samplePlatform (fun _ => unknownSpreadsheet) sampleConfig
      {[ lit "a" := describedCard ]} (requestFor (lit "a")) in
  response out = notFoundResponse (lit "sheet-1")
  /\ calls out = [SpreadsheetsGet (lit "sheet-1")].
Proof.
  apply (proj1 (spreadsheet_lookup_failure samplePlatform
                  (fun _ => unknownSpreadsheet) sampleConfig
                  {[ lit "a" := describedCard ]} (requestFor (lit "a"))
                  (lit "a") (lit "sheet-1") describedCard
                  (AuthCredentials (lit "{}"))
                  (sample_ready (lit "a") describedCard ltac:(by_eval)))
           (ErrorObject (lit "Requested entity was not found."))).
  reflexivity.
Defined.

Lemma tab_created_when_missing_witness :
  take 3 (calls (exportSheets samplePlatform (fun _ => otherTabSheet)
                   sampleConfig {[ lit "a" := describedCard ]}
                   (requestFor (lit "a"))))
  = [ SpreadsheetsGet (lit "sheet-1"); SpreadsheetsGet (lit "sheet-1");
      SpreadsheetsBatchUpdateAddSheet (lit "sheet-1") (lit "Cards") ].
Proof.
  apply (tab_created_when_missing samplePlatform (fun _ => otherTabSheet)
           sampleConfig {[ lit "a" := describedCard ]} (requestFor (lit "a"))
           (lit "a") (lit "sheet-1") describedCard
           (AuthCredentials (lit "{}"))
           (sample_ready (lit "a") describedCard ltac:(by_eval))
           (Some [Some (lit "Sheet1")]) (Some [Some (lit "Sheet1")]));
    reflexivity.
Defined.

Lemma export_success_witness :
  exists existingData log row,
    readSheet emptySheet (lit "sheet-1") (lit "Cards") []
    = (inr existingData, log)
    /\ calls (exportSheets samplePlatform (fun _ => emptySheet) sampleConfig
                {[ lit "a" := describedCard ]} (requestFor (lit "a")))
       = log ++ updates (lit "sheet-1") (lit "Cards") existingData row.
Proof.
  destruct (export_success samplePlatform (fun _ => emptySheet) sampleConfig
              {[ lit "a" := describedCard ]} (requestFor (lit "a"))
              (lit "a") (lit "sheet-1") describedCard
              (AuthCredentials (lit "{}"))
              (sample_ready (lit "a") describedCard ltac:(by_eval)))
    as (existingData & log & row & H1 & _ & H3 & _); [by_eval|].
  exists existingData, log, row. split; [exact H1 | exact H3].
Defined.

Lemma first_export_ranges_witness :
  exists row,
    calls (exportSheets samplePlatform (fun _ => emptySheet) sampleConfig
             {[ lit "a" := describedCard ]} (requestFor (lit "a")))
    = readCalls (lit "sheet-1") (lit "Cards") true
      ++ [ ValuesUpdate (lit "sheet-1") (lit "Cards" ++ lit "!A1:K1")
             [expectedHeaders];
           ValuesUpdate (lit "sheet-1") (lit "Cards" ++ lit "!A1:K1") [row] ].
Proof.
  destruct (first_export_ranges samplePlatform (fun _ => emptySheet)
              sampleConfig {[ lit "a" := describedCard ]}
              (requestFor (lit "a")) (lit "a") (lit "sheet-1") describedCard
              (AuthCredentials (lit "{}"))
              (sample_ready (lit "a") describedCard ltac:(by_eval))
              None (readCalls (lit "sheet-1") (lit "Cards") true))
    as (row & H & _); [by_eval | now left | by_eval |].
  exists row. exact H.
Defined.

Lemma update_failure_witness :
  let out :=
    exportSheets samplePlatform (fun _ => readOnlySheet) sampleConfig
      {[ lit "a" := describedCard ]} (requestFor (lit "a")) in
  response out
  = failureResponse sampleConfig
      (ErrorObject (lit "The caller does not have permission"))
  /\ calls out
     = readCalls (lit "sheet-1") (lit "Cards") true
       ++ [headerUpdate (lit "sheet-1") (lit "Cards") None].
Proof.
  apply (proj1 (update_failure samplePlatform (fun _ => readOnlySheet)
                  sampleConfig {[ lit "a" := describedCard ]}
                  (requestFor (lit "a")) (lit "a") (lit "sheet-1")
                  describedCard (AuthCredentials (lit "{}"))
                  (sample_ready (lit "a") describedCard ltac:(by_eval))
                  None (readCalls (lit "sheet-1") (lit "Cards") true)
                  (rowData describedCard
                     (lit "2020 Topps #42 Mike Trout PSA 9") 10)
                  ltac:(by_eval) ltac:(by_eval) ltac:(by_eval))).
  reflexivity.
Defined.

Lemma emptySheet_Reliable : Reliable emptySheet.
Proof. repeat split; intros; cbn; eauto. Defined.

Lemma reliable_service_export_witness :
  exists existingData log,
    readSheet emptySheet (lit "sheet-1") (lit "Cards") []
    = (inr existingData, log)
    /\ status (response
                 (exportSheets samplePlatform (fun _ => emptySheet)
                    sampleConfig {[ lit "a" := describedCard ]}
                    (requestFor (lit "a"))))
       = 200.
Proof.
  destruct (reliable_service_export samplePlatform (fun _ => emptySheet)
              sampleConfig {[ lit "a" := describedCard ]}
              (requestFor (lit "a")) (lit "a") (lit "sheet-1") describedCard
              (AuthCredentials (lit "{}"))
              (sample_ready (lit "a") describedCard ltac:(by_eval))
              emptySheet_Reliable)
    as (existingData & log & H1 & _).
  exists existingData, log. split; [exact H1 | by_eval].
Defined.

(** X26.  Both updates fit their ranges: for a row that passed the
    checks, either the row and the header have 11 cells and the ranges
    end at column K, or they have 12 cells and the ranges end at
    column L. *)
Theorem updates_fit_ranges (card : CardRecord)
    (listingTitle sheetName : jsstring)
    (existingData : option (list (list jsstring))) (row : list jsstring) :
  let index := snd (classify existingData) in
  let n := nextRowOf existingData in
  buildRow card listingTitle index = inr row ->
  (length row = 11 /\ length (headersFor index) = 11
   /\ headerRange sheetName index = sheetName ++ lit "!A1:K1"
   /\ rowRange sheetName index n
      = sheetName ++ lit "!A" ++ ofNat n ++ lit ":K" ++ ofNat n)
  \/
  (length row = 12 /\ length (headersFor index) = 12
   /\ headerRange sheetName index = sheetName ++ lit "!A1:L1"
   /\ rowRange sheetName index n
      = sheetName ++ lit "!A" ++ ofNat n ++ lit ":L" ++ ofNat n).
Proof.
  intros index n Hrow. apply buildRow_inr in Hrow as [-> _].
  rewrite rowData_length. unfold index. rewrite classify_snd.
  destruct existingData as [[|header others]|];
    try (left; repeat split; reflexivity).
  destruct (11 <? length header);
    [right | left]; repeat split; reflexivity.
Qed.

Lemma updates_fit_ranges_witness :
  rowRange (lit "Cards") (snd (classify (Some [legacyHeaders])))
    (nextRowOf (Some [legacyHeaders]))
  = lit "Cards!A2:L2".
Proof.
  destruct (updates_fit_ranges describedCard
              (lit "2020 Topps #42 Mike Trout PSA 9") (lit "Cards")
              (Some [legacyHeaders])
              (rowData describedCard (lit "2020 Topps #42 Mike Trout PSA 9")
                 11))
    as [(H & _) | (_ & _ & _ & H)]; [by_eval | | ].
  - vm_compute in H. discriminate.
  - rewrite H. by_eval.
Defined.

(** * The bound of the title by the description *)

Lemma csvListingTitle_chain (card : CardRecord) (d : jsstring) :
  autoDescription card = Some d -> d <> [] ->
  csvListingTitle card
  = let lt0 := initialTitle card in
    if truthy lt0 then
      let lt1 := if embeddedDefect lt0 d then cutTitle lt0 else lt0 in
      if strictEq lt1 d
      then orElse (title (normalized card)) (lit "Untitled")
      else lt1
    else lt0.
Proof.
  intros Hd Hne. apply truthy_true in Hne.
  unfold csvListingTitle, initialTitle, embeddedDefect, cutTitle.
  rewrite Hd, Hne, andb_true_r. reflexivity.
Qed.

Lemma cutTitle_length (s : jsstring) :
  length (cutTitle s) <= 150 /\ length (cutTitle s) <= length s.
Proof.
  assert (Hcut : length (trim (substring0 s 100)) <= 150
                 /\ length (trim (substring0 s 100)) <= length s).
  { pose proof (trim_length (substring0 s 100)) as H.
    unfold substring0 in *. rewrite length_take in H. lia. }
  unfold cutTitle. destruct (titleMatch s) as [g|] eqn:E; [|exact Hcut].
  destruct (truthy g); [|exact Hcut].
  apply titleMatch_iff in E as ((rest & -> & _) & Hg & _).
  pose proof (trim_length g). rewrite length_app. lia.
Qed.

(** C1, amended.  For the record [card] the swap step leaves, with a
    non-empty description [d], and the title [lt0] the chain starts
    from (autoTitle when it is not blank, else normalized.title):
    - after a swap, when the new autoTitle is not blank, the working
      title of both paths is that autoTitle, of fewer than 100 code
      units, and the description has more than 200;
    - when [lt0] is no longer than [d], or the embedded-description
      repair applies and [d] has at least 150 code units, the working
      title is no longer than [d] on both paths, unless it is the
      fallback of the identity repair (normalized.title, "Untitled" or
      "Untitled Card");
    - when the embedded-description repair does not apply and [lt0] is
      longer than [d], the working title of both paths is [lt0], longer
      than the description. *)
Theorem C1_length_invariant_amended (store : CardStore) (cardId : jsstring)
    (card0 : CardRecord) (d : jsstring) :
  let card := snd (swapRepair store cardId card0) in
  let lt0 := initialTitle card in
  let fallback := orElse (title (normalized card)) in
  autoDescription card = Some d -> d <> [] ->
  (swapDefect card0 = true ->
   forall t, autoTitle card = Some t -> trim t <> [] ->
     csvListingTitle card = t /\ sheetsListingTitle card = t
     /\ length t < 100 /\ 200 < length d)
  /\
  (length lt0 <= length d
   \/ (embeddedDefect lt0 d = true /\ 150 <= length d) ->
   (length (csvListingTitle card) <= length d
    \/ csvListingTitle card = fallback (lit "Untitled"))
   /\ (length (sheetsListingTitle card) <= length d
       \/ sheetsListingTitle card = fallback (lit "Untitled")
       \/ sheetsListingTitle card = fallback (lit "Untitled Card")))
  /\
  (embeddedDefect lt0 d = false -> length d < length lt0 ->
   csvListingTitle card = lt0 /\ sheetsListingTitle card = lt0).
Proof.
  intros card lt0 fallback Hd Hne.
  pose proof (csvListingTitle_chain card d Hd Hne) as Hcsv.
  pose proof (sheetsListingTitle_final card d Hd Hne) as Hsheets.
  cbv zeta in Hcsv, Hsheets. fold lt0 in Hcsv.
  split; [|split].
  - intros Hswap t Ht Htrim.
    assert (Hcard : card = swapFields card0).
    { unfold card. now rewrite (swapRepair_defect _ _ _ Hswap). }
    assert (Hlen : length t < 100 /\ 200 < length d).
    { rewrite Hcard in Ht, Hd. cbn [swapFields autoTitle autoDescription] in *.
      destruct (swapDefect_spec card0 d t Hd Ht) as [H _].
      destruct (H Hswap) as (_ & ? & ?). auto. }
    destruct (listingTitle_short card t d Ht Hd Htrim) as [H1 H2];
      try tauto.
  - intros Hbound.
    assert (H1 : length (csvListingTitle card) <= length d
                 \/ csvListingTitle card = fallback (lit "Untitled")).
    { rewrite Hcsv. destruct (truthy lt0) eqn:E0.
      - destruct (strictEq _ d); [now right | left].
        destruct (embeddedDefect lt0 d) eqn:Ed.
        + destruct (cutTitle_length lt0) as [H150 Hlt0].
          destruct Hbound as [? | [_ ?]]; lia.
        + destruct Hbound as [? | [? _]]; [assumption | discriminate].
      - left. apply truthy_false in E0. rewrite E0. simpl. lia. }
    split; [exact H1|]. rewrite Hsheets.
    destruct (truthy (csvListingTitle card) && _); [auto|].
    destruct H1; auto.
  - intros Hno Hlonger.
    assert (E0 : truthy lt0 = true) by (apply truthy_length; lia).
    assert (Ene : strictEq lt0 d = false) by (apply strictEq_length; lia).
    assert (H1 : csvListingTitle card = lt0).
    { now rewrite Hcsv, E0, Hno, Ene. }
    split; [exact H1|]. rewrite Hsheets, H1, E0, Ene. cbn [andb orb].
    unfold embeddedDefect in Hno.
    destruct (200 <? length lt0) eqn:E200; [|reflexivity].
    apply Nat.ltb_lt in E200.
    replace (150 <? length lt0) with true in Hno
      by (symmetry; apply Nat.ltb_lt; lia).
    cbn [andb] in Hno. now rewrite Hno.
Qed.

Lemma C1_length_invariant_amended_witness :
  (csvListingTitle (snd (swapRepair ∅ (lit "c1") transposedCard))
   = repeat 98%N 60
   /\ sheetsListingTitle (snd (swapRepair ∅ (lit "c1") transposedCard))
      = repeat 98%N 60)
  /\ (length (csvListingTitle (snd (swapRepair ∅ (lit "c1") runOnLongCard)))
      <= length extendedDescription
      \/ csvListingTitle (snd (swapRepair ∅ (lit "c1") runOnLongCard))
         = orElse (title (normalized runOnLongCard)) (lit "Untitled"))
  /\ csvListingTitle (snd (swapRepair ∅ (lit "c1") terseCard))
     = lit "2020 Topps Chrome Mike Trout PSA 9".
Proof.
  split; [|split].
  - destruct (C1_length_invariant_amended ∅ (lit "c1") transposedCard
                (repeat 97%N 300)) as (H & _ & _); [by_eval .. |].
    destruct (H ltac:(by_eval) (repeat 98%N 60)) as (H1 & H2 & _);
      [by_eval .. |].
    split; assumption.
  - destruct (C1_length_invariant_amended ∅ (lit "c1") runOnLongCard
                extendedDescription) as (_ & H & _); [by_eval .. |].
    apply H. right. by_eval.
  - destruct (C1_length_invariant_amended ∅ (lit "c1") terseCard
                (lit "Nice card.")) as (_ & _ & H); [by_eval .. |].
    destruct H as [H _]; [by_eval .. |].
    rewrite H. by_eval.
Defined.

(** * Failures of the Sheets handler *)

(** The read phase, when it succeeds, sent the two lookups, the
    add-sheet request when the tab was not listed, and the read. *)
Lemma readSheet_read (svc : SheetsService) (spreadsheetId sheetName : jsstring)
    (existingData : option (list (list jsstring))) (log : list SheetsCall) :
  readSheet svc spreadsheetId sheetName [] = (inr existingData, log) ->
  exists sheets,
    spreadsheets_get svc [SpreadsheetsGet spreadsheetId] spreadsheetId
    = inr sheets
    /\ log = readCalls spreadsheetId sheetName (sheetExists sheets sheetName).
Proof.
  rewrite readSheet_cases.
  destruct (spreadsheets_get svc [] spreadsheetId); [discriminate|].
  destruct (spreadsheets_get svc [_] spreadsheetId) as [t|sheets];
    [discriminate|].
  intros H. exists sheets. split; [reflexivity|].
  destruct (sheetExists sheets sheetName).
  - now injection H as _ <-.
  - destruct (spreadsheets_batchUpdate _ _ _ _); [discriminate|].
    now injection H as _ <-.
Qed.

(** C6, counterexample.  The tab "Cards" is missing and the row of
    [echoCard] fails the identity check: the call is answered 500 and
    the add-sheet request has been sent before the row was checked. *)
Lemma C6_counterexample :
  let out :=
    exportSheets samplePlatform (fun _ => otherTabSheet) sampleConfig
      {[ lit "c2" := echoCard ]} (requestFor (lit "c2")) in
  buildRow echoCard (sheetsListingTitle echoCard) 10 = inl identicalError
  /\ response out = failureResponse sampleConfig identicalError
  /\ calls out
     = [ SpreadsheetsGet (lit "sheet-1"); SpreadsheetsGet (lit "sheet-1");
         SpreadsheetsBatchUpdateAddSheet (lit "sheet-1") (lit "Cards");
         ValuesGet (lit "sheet-1") (lit "Cards!A:Z") ].
Proof. by_eval. Qed.

(** C6, amended.  In a call of the Sheets handler whose row fails a
    check, the thrown error ends the call with the 500 answer and no
    cell value is written: no request of the call updates a range,
    neither the header range nor the data row.  The requests of the
    call are exactly those of the read phase: the two lookups of the
    spreadsheet, the add-sheet request when the second lookup did not
    list the tab (the tab has then been created although the export
    fails), and the read of the tab. *)
Theorem C6_only_read_phase_when_validation_fails (p : Platform)
    (client : GoogleAuth -> SheetsService) (config : Config.t)
    (store : CardStore) (req : Request.body) (cardId spreadsheetId : jsstring)
    (card0 : CardRecord) (auth : GoogleAuth)
    (existingData : option (list (list jsstring))) (e : Thrown)
    (log : list SheetsCall) :
  ready p config store req cardId spreadsheetId card0 auth ->
  let card := snd (swapRepair store cardId card0) in
  let sheetName := resolveSheetName config req in
  readSheet (client auth) spreadsheetId sheetName []
  = (inr existingData, log) ->
  buildRow card (sheetsListingTitle card) (snd (classify existingData))
  = inl e ->
  let out := exportSheets p client config store req in
  response out = failureResponse config e
  /\ Forall (fun c => isValuesUpdate c = false) (calls out)
  /\ exists sheets,
       spreadsheets_get (client auth) [SpreadsheetsGet spreadsheetId]
         spreadsheetId = inr sheets
       /\ calls out
          = readCalls spreadsheetId sheetName (sheetExists sheets sheetName).
Proof.
  intros Hready card sheetName Hread Hbuild out.
  destruct (exportSheets_ready p client config store req cardId spreadsheetId
              card0 auth Hready) as [Hresp Hcalls].
  fold out card sheetName in Hresp, Hcalls.
  rewrite (writeSheet_read _ _ _ _ _ _ Hread),
    (writeRow_rejected _ _ _ _ _ _ _ _ Hbuild) in Hresp, Hcalls.
  cbn [fst snd] in Hresp, Hcalls.
  split; [exact Hresp|]. rewrite Hcalls. split.
  - now destruct (readSheet_run _ _ _ _ _ Hread).
  - now apply readSheet_read with (existingData := existingData).
Qed.

Lemma C6_only_read_phase_when_validation_fails_witness :
  let out :=
    exportSheets samplePlatform (fun _ => otherTabSheet) sampleConfig
      {[ lit "c2" := echoCard ]} (requestFor (lit "c2")) in
  response out = failureResponse sampleConfig identicalError
  /\ Forall (fun c => isValuesUpdate c = false) (calls out)
  /\ exists sheets,
       spreadsheets_get otherTabSheet [SpreadsheetsGet (lit "sheet-1")]
         (lit "sheet-1") = inr sheets
       /\ calls out
          = readCalls (lit "sheet-1")
              (resolveSheetName sampleConfig (requestFor (lit "c2")))
              (sheetExists sheets
                 (resolveSheetName sampleConfig (requestFor (lit "c2")))).
Proof.
  apply (C6_only_read_phase_when_validation_fails samplePlatform
           (fun _ => otherTabSheet) sampleConfig {[ lit "c2" := echoCard ]}
           (requestFor (lit "c2")) (lit "c2") (lit "sheet-1") echoCard
           (AuthCredentials (lit "{}")) None identicalError
           (readCalls (lit "sheet-1") (lit "Cards") false)
           (sample_ready (lit "c2") echoCard ltac:(by_eval)));
    by_eval.
Defined.



(** A card id with a line feed makes the Content-Disposition header
    invalid: the CSV export is answered 500. *)
Example csv_invalid_card_id :
  fst (exportCsv {[ lit "a" ++ [10%N] := terseCard ]}
         (requestFor (lit "a" ++ [10%N])))
  = jsonError 500 (lit "CSV export failed").
Proof. by_eval. Qed.
